(** * The BigQuery pipeline cell of pydatalab

    A shallow embedding of
    [google/datalab/contrib/bigquery/commands/_bigquery.py]: the three
    stage builders [_add_load_parameters], [_add_execute_parameters] and
    [_add_extract_parameters], the assembler [_pipeline_cell] and the
    query-parameter extractor [_get_query_parameters].

    Python dictionaries are finite maps from strings to values, Python
    exceptions are the [Raise] results of an error monad, and the notebook
    environment (the name registry) is the state of a state-and-error
    monad. *)

From stdpp Require Import gmap strings list fin_maps.

Set Warnings "-register-all".
Open Scope string_scope.

(** ** Values of the parsed documents

    What the YAML/JSON parser hands to the cell: scalars, sequences and
    mappings. *)

Inductive value : Type :=
| VNone
| VBool (b : bool)
| VInt (z : Z)
| VStr (s : string)
| VList (l : list value)
| VDict (d : gmap string value).

Abbreviation dict := (gmap string value).

(** ** Exceptions *)

Inductive exn : Type :=
| Exception (msg : string)   (* [raise Exception(msg)] in this file *)
| KeyError (key : string)    (* [d[key]] on a mapping without [key] *)
| TypeError                  (* [key in x] or [x[key]] on a wrong type *)
| AttributeError             (* [x.get] on something that is no mapping *)
| ValidationError            (* raised by [jsonschema.validate] *)
| CollaboratorError.         (* raised inside an external collaborator *)

Inductive result (A : Type) : Type :=
| Ok (a : A)
| Raise (e : exn).
Arguments Ok {A} a.
Arguments Raise {A} e.

#[global] Instance result_ret : MRet result := @Ok.
#[global] Instance result_bind : MBind result := fun A B f m =>
  match m with
  | Ok a => f a
  | Raise e => Raise e
  end.

(** ** The Python operations the cell uses on a parsed value *)

(** [bool(d)] for a dictionary: non-empty. *)
Definition dict_truth (d : dict) : bool :=
  match map_to_list d with
  | [] => false
  | _ :: _ => true
  end.

(** [bool(v)], the test of [if v:]. *)
Definition py_truth (v : value) : bool :=
  match v with
  | VNone => false
  | VBool b => b
  | VInt z => negb (Z.eqb z 0)
  | VStr s => negb (String.eqb s "")
  | VList l => match l with [] => false | _ :: _ => true end
  | VDict d => dict_truth d
  end.

Definition is_str (k : string) (v : value) : bool :=
  match v with
  | VStr s => String.eqb s k
  | _ => false
  end.

(** [k in c] for a string [k]: key membership in a mapping, substring in a
    string, element in a sequence, [TypeError] on anything else. *)
Definition py_in (k : string) (c : value) : result bool :=
  match c with
  | VDict d => Ok (bool_decide (is_Some (d !! k)))
  | VStr s => Ok (match String.index 0 k s with Some _ => true | None => false end)
  | VList l => Ok (existsb (is_str k) l)
  | VNone | VBool _ | VInt _ => Raise TypeError
  end.

(** [c[k]] for a string [k]. *)
Definition py_getitem (c : value) (k : string) : result value :=
  match c with
  | VDict d => match d !! k with
               | Some v => Ok v
               | None => Raise (KeyError k)
               end
  | _ => Raise TypeError
  end.

(** [c.get(k, dflt)]. *)
Definition py_get (c : value) (k : string) (dflt : value) : result value :=
  match c with
  | VDict d => Ok (default dflt (d !! k))
  | _ => Raise AttributeError
  end.

(** [any(key in c for key in ks)]: stops at the first key found. *)
Fixpoint py_any_in (ks : list string) (c : value) : result bool :=
  match ks with
  | [] => Ok false
  | k :: ks' =>
      b ← py_in k c;
      if b : bool then Ok true else py_any_in ks' c
  end.

(** [for x in c]: the elements the loop visits.  A mapping yields its
    keys, a string its characters. *)
Definition py_iter (c : value) : result (list value) :=
  match c with
  | VList l => Ok l
  | VDict d => Ok ((fun kv => VStr (fst kv)) <$> map_to_list d)
  | VStr s => Ok ((fun a => VStr (String a EmptyString)) <$> String.list_ascii_of_string s)
  | VNone | VBool _ | VInt _ => Raise TypeError
  end.

(** The one-character string holding the double quote, the default of
    the load stage's [quote] option. *)
Definition double_quote : string := String (Ascii.ascii_of_nat 34) EmptyString.

(** ** The stage builders

    Each builder receives the task dictionary it fills in place.  The
    model returns the dictionary as it stands when the builder returns,
    next to the value the Python function returns ([None] for Python's
    [None], [Some d] for the dictionary itself). *)

Definition _add_load_parameters (load_task_config : dict)
    (bq_pipeline_input_config : value) : result (dict * option dict) :=
  let path_exists := false in
  in_path ← py_in "path" bq_pipeline_input_config;
  '(load_task_config, path_exists) ←
    (if in_path : bool then
       v ← py_getitem bq_pipeline_input_config "path";
       mret (<["path" := v]> load_task_config, true)
     else mret (load_task_config, path_exists));
  let table_exists := false in
  in_table ← py_in "table" bq_pipeline_input_config;
  '(load_task_config, table_exists) ←
    (if in_table : bool then
       v ← py_getitem bq_pipeline_input_config "table";
       mret (<["table" := v]> load_task_config, true)
     else mret (load_task_config, table_exists));
  let schema_exists := false in
  in_schema ← py_in "schema" bq_pipeline_input_config;
  load_task_config ←
    (if in_schema : bool then
       v ← py_getitem bq_pipeline_input_config "schema";
       mret (<["schema" := v]> load_task_config)
     else mret load_task_config);
  (* line 192: the assignment stands after the [if], not inside it *)
  let schema_exists := true in
  (* lines 222-242 *)
  let file_options (load_task_config : dict) : result (dict * option dict) :=
    if path_exists : bool then
      format ← py_get bq_pipeline_input_config "format" (VStr "csv");
      let load_task_config := <["format" := format]> load_task_config in
      delimiter ← py_get bq_pipeline_input_config "delimiter" (VStr ",");
      let load_task_config := <["delimiter" := delimiter]> load_task_config in
      quote ← py_get bq_pipeline_input_config "quote" (VStr double_quote);
      let load_task_config := <["quote" := quote]> load_task_config in
      skip ← py_get bq_pipeline_input_config "skip" (VInt 0);
      let load_task_config := <["skip" := skip]> load_task_config in
      strict ← py_get bq_pipeline_input_config "strict" (VBool true);
      let load_task_config := <["strict" := strict]> load_task_config in
      mret (load_task_config, Some load_task_config)
    else
      any_option ← py_any_in ["format"; "delimiter"; "quote"; "skip"; "strict"]
                             bq_pipeline_input_config;
      if any_option : bool then
        Raise (Exception "Path is not specified, but at least one file option is.")
      else mret (load_task_config, Some load_task_config) in
  if table_exists : bool then
    if path_exists : bool then
      if schema_exists : bool then
        file_options (<["mode" := VStr "create"]> load_task_config)
      else
        file_options (<["mode" := VStr "append"]> load_task_config)
    else
      if schema_exists : bool then
        Raise (Exception "Schema is specified, but path is absent.")
      else
        mret (load_task_config, None)
  else
    if negb path_exists then
      mret (load_task_config, None)
    else
      file_options load_task_config.

Definition _add_execute_parameters (execute_task_config : dict)
    (bq_pipeline_transformation_config : value) : result (dict * option dict) :=
  in_query ← py_in "query" bq_pipeline_transformation_config;
  if in_query : bool then
    v ← py_getitem bq_pipeline_transformation_config "query";
    let execute_task_config := <["query" := v]> execute_task_config in
    large ← py_get bq_pipeline_transformation_config "large" (VBool true);
    let execute_task_config := <["large" := large]> execute_task_config in
    mode ← py_get bq_pipeline_transformation_config "mode" (VStr "create");
    let execute_task_config := <["mode" := mode]> execute_task_config in
    mret (execute_task_config, Some execute_task_config)
  else
    any_option ← py_any_in ["large"; "mode"] bq_pipeline_transformation_config;
    if any_option : bool then
      Raise (Exception "Query is not specified, but at least one query option is.")
    else mret (execute_task_config, None).

(** The extract builder fills two dictionaries: its own and, with the
    destination table, the execute task's.  The model returns both, then
    the Python return value, which is [None] on every path (the function
    ends without a [return]). *)
Definition _add_extract_parameters (extract_task_config execute_task_config : dict)
    (bq_pipeline_output_config : value) : result (dict * dict * option dict) :=
  in_table ← py_in "table" bq_pipeline_output_config;
  if in_table : bool then
    v ← py_getitem bq_pipeline_output_config "table";
    let execute_task_config := <["table" := v]> execute_task_config in
    in_path ← py_in "path" bq_pipeline_output_config;
    if in_path : bool then
      v ← py_getitem bq_pipeline_output_config "path";
      let extract_task_config := <["path" := v]> extract_task_config in
      if negb (bool_decide (is_Some (execute_task_config !! "table"))) then
        Raise (Exception "Path is specified but table is not.")
      else
        billing ← py_get bq_pipeline_output_config "billing" VNone;
        let extract_task_config := <["billing" := billing]> extract_task_config in
        compress ← py_get bq_pipeline_output_config "compress" (VBool true);
        let extract_task_config := <["compress" := compress]> extract_task_config in
        delimiter ← py_get bq_pipeline_output_config "delimiter" (VStr ",");
        let extract_task_config := <["delimiter" := delimiter]> extract_task_config in
        header ← py_get bq_pipeline_output_config "header" (VBool true);
        let extract_task_config := <["header" := header]> extract_task_config in
        format ← py_get bq_pipeline_output_config "format" (VStr "csv");
        let extract_task_config := <["format" := format]> extract_task_config in
        mret (extract_task_config, execute_task_config, None)
    else
      any_option ← py_any_in ["compress"; "delimiter"; "format"; "header"]
                             bq_pipeline_output_config;
      if any_option : bool then
        Raise (Exception "Path is not specified, but at least one file option is.")
      else mret (extract_task_config, execute_task_config, None)
  else
    mret (extract_task_config, execute_task_config, None).

(** ** The notebook environment and the cell monad *)

(** The arguments of the magic, as the argument parsers of lines 27-50
    declare them: [--name] is a string, [--billing] an integer, [--debug] a
    flag of default [False]; [query] belongs to the query cell.  [None]
    stands for Python's [None]. *)
Record Args : Type := mkArgs {
  arg_name : option string;
  arg_query : option string;
  arg_billing : option Z;
  arg_debug : bool
}.

(** [Pipeline(name, pipeline_spec)]: the object the cell registers. *)
Record Pipeline : Type := mkPipeline {
  pipeline_name : string;
  pipeline_spec : dict
}.

(** What a name of the notebook environment is bound to. *)
Inductive object : Type :=
| ObjValue (v : value)
| ObjPipeline (p : Pipeline).

Abbreviation Env := (gmap string object).

(** A cell runs in the notebook environment: it receives the environment,
    returns or raises, and leaves the environment as it stands at that
    point. Nothing is rolled back when it raises. *)
Definition cell (A : Type) : Type := Env -> result A * Env.

#[global] Instance cell_ret : MRet cell := fun A a env => (Ok a, env).
#[global] Instance cell_bind : MBind cell := fun A B f m env =>
  match m env with
  | (Ok a, env') => f a env'
  | (Raise e, env') => (Raise e, env')
  end.

(** A computation that does not touch the environment. *)
Definition lift {A : Type} (r : result A) : cell A := fun env => (r, env).

(** [raise e]. *)
Definition raise {A : Type} (e : exn) : cell A := lift (Raise e).

(** A call into a collaborator: [None] when the collaborator raises. *)
Definition call {A : Type} (r : option A) : cell A :=
  match r with
  | Some a => mret a
  | None => raise CollaboratorError
  end.

(** [notebook_environment()]. *)
Definition notebook_environment : cell Env := fun env => (Ok env, env).

(** [notebook_environment()[name] = p]. *)
Definition notebook_environment_set (name : string) (p : Pipeline) : cell unit :=
  fun env => (Ok tt, <[name := ObjPipeline p]> env).

(** ** The query-parameter schema *)

(** One entry of the parameter list: a mapping with a string [name], a
    string [type] and a [value]. *)
Definition query_param_ok (p : value) : bool :=
  match p with
  | VDict d =>
      match d !! "name", d !! "type", d !! "value" with
      | Some (VStr _), Some (VStr _), Some _ => true
      | _, _, _ => false
      end
  | _ => false
  end.

(** Modelled from the spec: [query_params_schema], which
    [_get_query_parameters] reads from another module of the package; it
    is not among the sources.  Section 6 gives its shape,
    [{parameters: [ {name: string, type: string, value: any}, ... ]}], and
    section 4.1 makes the three fields of each parameter required. *)
Definition query_params_schema (config : value) : bool :=
  match config with
  | VDict d =>
      match d !! "parameters" with
      | Some (VList ps) => forallb query_param_ok ps
      | _ => false
      end
  | _ => false
  end.

(** [jsonschema.validate(instance, schema)]. *)
Definition jsonschema_validate (instance : value) (schema : value -> bool)
    : result unit :=
  if schema instance then Ok tt else Raise ValidationError.

(** The loop of lines 103-113: one compiled parameter appended per
    element, in the order of the iteration. *)
Fixpoint parse_params (params parsed_params : list value) : result (list value) :=
  match params with
  | [] => Ok parsed_params
  | param :: rest =>
      name ← py_getitem param "name";
      type ← py_getitem param "type";
      val ← py_getitem param "value";
      let compiled : dict :=
        <["name" := name]>
        (<["parameterType" := VDict {["type" := type]}]>
        (<["parameterValue" := VDict {["value" := val]}]> ∅)) in
      parse_params rest (parsed_params ++ [VDict compiled])
  end.

Section Cells.

(** The collaborators the cells call.  [parse_config text env as_dict]
    parses the cell body, [Pipeline_py p] renders [p.py]. *)
Variable parse_config : option string -> Env -> bool -> option value.
Variable Pipeline_py : Pipeline -> option string.

Definition _get_query_parameters (args : Args) (cell_body : option string)
    : cell value :=
  env ← notebook_environment;
  config ← call (parse_config cell_body env false);
  let sql := arg_query args in
  match sql with
  | None => raise (Exception "Cannot extract query parameters in non-query cell")
  | Some _ =>
      if py_truth config then
        _ ← lift (jsonschema_validate config query_params_schema);
        params ← lift (py_getitem config "parameters");
        params ← lift (py_iter params);
        parsed_params ← lift (parse_params params []);
        mret (VList parsed_params)
      else mret (VDict ∅)
  end.

Definition _pipeline_cell (args : Args) (cell_body : option string)
    : cell (option string) :=
  let name := arg_name args in
  match name with
  | None => raise (Exception "Pipeline name was not specified.")
  | Some name =>
      env ← notebook_environment;
      bq_pipeline_config ← call (parse_config cell_body env true);
      let load_task_config_name := "bq_pipeline_load_task" in
      let load_task_config : dict := {["type" := VStr "pydatalab.bq.load"]} in
      input ← lift (py_get bq_pipeline_config "input" VNone);
      '(load_task_config, _) ← lift (_add_load_parameters load_task_config input);
      let execute_task_config_name := "bq_pipeline_execute_task" in
      let execute_task_config : dict :=
        <["type" := VStr "pydatalab.bq.execute"]>
        (<["up_stream" := VList [VStr load_task_config_name]]> ∅) in
      transformation ← lift (py_getitem bq_pipeline_config "transformation");
      '(execute_task_config, _) ←
        lift (_add_execute_parameters execute_task_config transformation);
      let extract_task_config_name := "bq_pipeline_extract_task" in
      let extract_task_config : dict :=
        <["type" := VStr "pydatalab.bq.extract"]>
        (<["up_stream" := VList [VStr execute_task_config_name]]> ∅) in
      output ← lift (py_getitem bq_pipeline_config "output");
      '(extract_task_config, execute_task_config, _) ←
        lift (_add_extract_parameters extract_task_config execute_task_config output);
      email ← lift (py_getitem bq_pipeline_config "email");
      schedule ← lift (py_getitem bq_pipeline_config "schedule");
      let pipeline_spec : dict :=
        <["email" := email]> (<["schedule" := schedule]> ∅) in
      (* lines 156-162: a task dictionary is tested, not the value its
         builder returned *)
      let tasks : dict := ∅ in
      let tasks :=
        if dict_truth load_task_config
        then <[load_task_config_name := VDict load_task_config]> tasks
        else tasks in
      let tasks :=
        if dict_truth execute_task_config
        then <[execute_task_config_name := VDict execute_task_config]> tasks
        else tasks in
      let tasks :=
        if dict_truth extract_task_config
        then <[extract_task_config_name := VDict extract_task_config]> tasks
        else tasks in
      let pipeline_spec := <["tasks" := VDict tasks]> pipeline_spec in
      if negb (dict_truth load_task_config)
         && negb (dict_truth execute_task_config)
         && negb (dict_truth extract_task_config)
      then raise (Exception "Pipeline has no tasks to execute.")
      else
        let pipeline := mkPipeline name pipeline_spec in
        _ ← notebook_environment_set name pipeline;
        let debug := arg_debug args in
        if debug then
          py ← call (Pipeline_py pipeline);
          mret (Some py)
        else mret None
  end.

End Cells.

(** ** The context of a cell *)

(** [google.datalab.Context(project_id, credentials, config)], as the cell
    constructs it: a project, credentials (opaque here) and a
    configuration dictionary. *)
Record DatalabContext (Credentials : Type) : Type := mkContext {
  context_project_id : value;
  context_credentials : Credentials;
  context_config : dict
}.
Arguments mkContext {Credentials} _ _ _.
Arguments context_project_id {Credentials} _.
Arguments context_credentials {Credentials} _.
Arguments context_config {Credentials} _.

(** The default context is an object of a collaborator, and its
    [project_id], [credentials] and [config] are properties: reading one
    runs code of the collaborator, which may raise ([project_id] does when
    no project is set).  The record holds what each read gives, [None]
    when it raises. *)
Record DefaultContext (Credentials : Type) : Type := mkDefaultContext {
  default_project_id : option value;
  default_credentials : option Credentials;
  default_config : option dict
}.
Arguments mkDefaultContext {Credentials} _ _ _.
Arguments default_project_id {Credentials} _.
Arguments default_credentials {Credentials} _.
Arguments default_config {Credentials} _.

(** A read of a property or a call of the collaborator, outside the
    notebook environment: [None] when it raises. *)
Definition read {A : Type} (r : option A) : result A :=
  match r with
  | Some a => Ok a
  | None => Raise CollaboratorError
  end.

(** The loop of lines 64-65: [config[key] = source.config[key]] for each
    key of the iteration; [source_config] is what the read of
    [source.config] gives. *)
Fixpoint copy_config (keys : list string) (source_config : option dict) (config : dict)
    : result dict :=
  match keys with
  | [] => Ok config
  | key :: rest =>
      source ← read source_config;
      v ← py_getitem (VDict source) key;
      copy_config rest source_config (<[key := v]> config)
  end.

(** [Context_default] stands for the call
    [google.datalab.Context.default()], [None] when it raises. *)
Definition _construct_context_for_args {Credentials : Type}
    (Context_default : option (DefaultContext Credentials)) (args : Args)
    : result (DatalabContext Credentials) :=
  global_default_context ← read Context_default;
  let config : dict := ∅ in
  keys ← read (default_config global_default_context);
  config ← copy_config (fst <$> map_to_list keys)
                       (default_config global_default_context) config;
  let billing_tier_arg := arg_billing args in
  let config :=
    match billing_tier_arg with
    | Some b => if py_truth (VInt b)
                then <["bigquery_billing_tier" := VInt b]> config
                else config
    | None => config
    end in
  project_id ← read (default_project_id global_default_context);
  credentials ← read (default_credentials global_default_context);
  mret (mkContext project_id credentials config).

(** * Statements

    The vocabulary of the properties below: the dictionaries the cell
    starts its tasks from, the keys each builder writes, what it means for
    a parameter to be compiled and for a task mapping to be closed under
    [up_stream], and the documents the properties are tried on. *)

(** ** The tasks of the cell *)

Definition load_task_config_name : string := "bq_pipeline_load_task".
Definition execute_task_config_name : string := "bq_pipeline_execute_task".
Definition extract_task_config_name : string := "bq_pipeline_extract_task".

(** The dictionaries of lines 139, 143 and 147. *)
Definition load_task_init : dict := {["type" := VStr "pydatalab.bq.load"]}.

Definition execute_task_init : dict :=
  <["type" := VStr "pydatalab.bq.execute"]>
  (<["up_stream" := VList [VStr load_task_config_name]]> ∅).

Definition extract_task_init : dict :=
  <["type" := VStr "pydatalab.bq.extract"]>
  (<["up_stream" := VList [VStr execute_task_config_name]]> ∅).

(** The keys a builder writes into the dictionary it fills. *)
Definition load_keys : list string :=
  ["path"; "table"; "schema"; "mode"; "format"; "delimiter"; "quote"; "skip"; "strict"].
Definition execute_keys : list string := ["query"; "large"; "mode"].
Definition extract_keys : list string :=
  ["path"; "billing"; "compress"; "delimiter"; "header"; "format"].

(** The messages of the [Exception]s that a run of the pipeline cell can
    end with. *)
Definition pipeline_messages : list string :=
  ["Pipeline name was not specified.";
   "Schema is specified, but path is absent.";
   "Query is not specified, but at least one query option is.";
   "Path is not specified, but at least one file option is."].

(** ** Compiled parameters *)

(** [q] is the compiled form of the user parameter [p]: the name kept, the
    type under [parameterType.type], the value under
    [parameterValue.value], and no other field. *)
Definition compiled_from (p q : value) : Prop :=
  exists (d : dict) (n t v : value),
    p = VDict d
    /\ d !! "name" = Some n /\ d !! "type" = Some t /\ d !! "value" = Some v
    /\ q = VDict (<["name" := n]>
                 (<["parameterType" := VDict {["type" := t]}]>
                 (<["parameterValue" := VDict {["value" := v]}]> ∅))).

(** ** Registered pipelines *)

(** The task mapping of a registered pipeline. *)
Definition three_tasks (load execute extract : dict) : dict :=
  <[extract_task_config_name := VDict extract]>
  (<[execute_task_config_name := VDict execute]>
  (<[load_task_config_name := VDict load]> ∅)).

(** The three tasks, chained by [up_stream]. *)
Definition chained (tasks : dict) : Prop :=
  exists load execute extract : dict,
    tasks = three_tasks load execute extract
    /\ load !! "up_stream" = None
    /\ execute !! "up_stream" = Some (VList [VStr load_task_config_name])
    /\ extract !! "up_stream" = Some (VList [VStr execute_task_config_name]).

(** Every name in an [up_stream] list is the name of a task of the same
    mapping. *)
Definition upstream_closed (tasks : dict) : Prop :=
  forall (t : string) (cfg : dict) (ups : list value) (u : value),
    tasks !! t = Some (VDict cfg) ->
    cfg !! "up_stream" = Some (VList ups) ->
    u ∈ ups ->
    exists s : string, u = VStr s /\ is_Some (tasks !! s).

(** How a run of the pipeline cell ends: it raises with the environment
    untouched, or it has registered a pipeline of three chained tasks under
    the given name, after which only the rendering of the debug mode can
    still raise. *)
Inductive outcome (args : Args) (env : Env) : result (option string) -> Env -> Prop :=
| Failed (e : exn) : outcome args env (Raise e) env
| Registered (name : string) (spec tasks : dict) (r : result (option string)) :
    arg_name args = Some name ->
    spec !! "tasks" = Some (VDict tasks) ->
    chained tasks ->
    (r = Raise CollaboratorError \/ exists py, r = Ok py) ->
    outcome args env r (<[name := ObjPipeline (mkPipeline name spec)]> env).

(** ** Successful runs *)

(** The specification the cell assembles at lines 150-162. *)
Definition pipeline_spec_of (email schedule : value) (load execute extract : dict) : dict :=
  <["tasks" := VDict (three_tasks load execute extract)]>
  (<["email" := email]> (<["schedule" := schedule]> ∅)).

(** A run of the pipeline cell that returns: every step of the cell has
    returned, in the order of the source, and the pipeline assembled from
    their results is bound to the name. *)
Inductive compiled
    (parse_config : option string -> Env -> bool -> option value)
    (Pipeline_py : Pipeline -> option string)
    (args : Args) (cell_body : option string) (env : Env)
    : option string -> Env -> Prop :=
| Compiled (name : string) (doc input transformation output email schedule : value)
    (load execute0 execute extract : dict) (r1 r2 r3 : option dict)
    (py : option string) :
    arg_name args = Some name ->
    parse_config cell_body env true = Some doc ->
    py_get doc "input" VNone = Ok input ->
    _add_load_parameters load_task_init input = Ok (load, r1) ->
    py_getitem doc "transformation" = Ok transformation ->
    _add_execute_parameters execute_task_init transformation = Ok (execute0, r2) ->
    py_getitem doc "output" = Ok output ->
    _add_extract_parameters extract_task_init execute0 output = Ok (extract, execute, r3) ->
    py_getitem doc "email" = Ok email ->
    py_getitem doc "schedule" = Ok schedule ->
    (if arg_debug args
     then exists s : string,
         Pipeline_py (mkPipeline name (pipeline_spec_of email schedule load execute extract))
         = Some s /\ py = Some s
     else py = None) ->
    compiled parse_config Pipeline_py args cell_body env py
      (<[name := ObjPipeline
                   (mkPipeline name (pipeline_spec_of email schedule load execute extract))]>
         env).

(** ** Documents *)

(** A parsed pipeline document with the three sections given. *)
Definition document (input transformation output : dict) : value :=
  VDict (<["email" := VStr "me@example.com"]>
        (<["schedule" := VDict {["interval" := VStr "@daily"]}]>
        (<["input" := VDict input]>
        (<["transformation" := VDict transformation]>
        (<["output" := VDict output]> ∅))))).

Definition pipeline_args : Args := mkArgs (Some "p") None None false.
Definition query_args : Args := mkArgs None (Some "q") None false.

(** An environment that already binds a name. *)
Definition busy_env : Env := {["answer" := ObjValue (VInt 42)]}.

(** An input with table and path and no schema. *)
Definition load_no_schema : value :=
  VDict (<["table" := VStr "t"]> {["path" := VStr "gs://x"]}).

(** The execute task as its builder leaves it for the query [SELECT 1]. *)
Definition execute_task_built : dict :=
  <["type" := VStr "pydatalab.bq.execute"]>
  (<["up_stream" := VList [VStr load_task_config_name]]>
  (<["query" := VStr "SELECT 1"]>
  (<["large" := VBool true]>
  (<["mode" := VStr "create"]> ∅)))).

(** An output with a path and file options, and no table. *)
Definition output_path_only : dict :=
  <["path" := VStr "gs://y"]> (<["format" := VStr "json"]> {["header" := VBool false]}).

(** An output with a table and a path. *)
Definition output_table_path : dict :=
  <["table" := VStr "t2"]> {["path" := VStr "gs://y"]}.

(** A parameters document of two parameters. *)
Definition params_document : dict :=
  {["parameters" :=
      VList [VDict (<["name" := VStr "n"]>
                   (<["type" := VStr "INTEGER"]> {["value" := VInt 3]}));
             VDict (<["name" := VStr "s"]>
                   (<["type" := VStr "STRING"]> {["value" := VStr "a"]}))]]}.

(** The document of a table, a query and an empty output. *)
Definition table_query_document : value :=
  document {["table" := VStr "t"]} {["query" := VStr "SELECT 1"]} ∅.

(** What the cell registers for the document of three empty sections. *)
Definition empty_document_spec : dict :=
  <["email" := VStr "me@example.com"]>
  (<["schedule" := VDict {["interval" := VStr "@daily"]}]>
  (<["tasks" := VDict (three_tasks load_task_init execute_task_init extract_task_init)]> ∅)).

(** The end-to-end document of the three stages, and what the cell
    registers for it. *)
Definition full_input : dict :=
  <["path" := VStr "gs://x"]>
  (<["table" := VStr "t"]>
  {["schema" := VList [VDict (<["name" := VStr "c"]> {["type" := VStr "STRING"]})]]}).

Definition full_document : value :=
  document full_input {["query" := VStr "SELECT 1"]} output_table_path.

Definition full_load_task : dict :=
  <["type" := VStr "pydatalab.bq.load"]>
  (<["path" := VStr "gs://x"]>
  (<["table" := VStr "t"]>
  (<["schema" := VList [VDict (<["name" := VStr "c"]> {["type" := VStr "STRING"]})]]>
  (<["mode" := VStr "create"]>
  (<["format" := VStr "csv"]>
  (<["delimiter" := VStr ","]>
  (<["quote" := VStr double_quote]>
  (<["skip" := VInt 0]>
  (<["strict" := VBool true]> ∅))))))))).

Definition full_execute_task : dict := <["table" := VStr "t2"]> execute_task_built.

Definition full_extract_task : dict :=
  <["type" := VStr "pydatalab.bq.extract"]>
  (<["up_stream" := VList [VStr execute_task_config_name]]>
  (<["path" := VStr "gs://y"]>
  (<["billing" := VNone]>
  (<["compress" := VBool true]>
  (<["delimiter" := VStr ","]>
  (<["header" := VBool true]>
  (<["format" := VStr "csv"]> ∅))))))).

Definition full_spec : dict :=
  <["email" := VStr "me@example.com"]>
  (<["schedule" := VDict {["interval" := VStr "@daily"]}]>
  (<["tasks" := VDict (three_tasks full_load_task full_execute_task full_extract_task)]> ∅)).

Definition full_pipeline : Pipeline := mkPipeline "p" full_spec.


(** The sections of [document], as a dictionary. *)
Definition document_sections (input transformation output : dict) : dict :=
  <["email" := VStr "me@example.com"]>
  (<["schedule" := VDict {["interval" := VStr "@daily"]}]>
  (<["input" := VDict input]>
  (<["transformation" := VDict transformation]>
  (<["output" := VDict output]> ∅)))).

Definition full_sections : dict :=
  document_sections full_input {["query" := VStr "SELECT 1"]} output_table_path.

(** The arguments of a run in debug mode, and a renderer. *)
Definition debug_args : Args := mkArgs (Some "p") None None true.
Definition render_name (p : Pipeline) : option string := Some (pipeline_name p).

(** Arguments with a billing tier, and with the tier [0]. *)
Definition billing_args : Args := mkArgs None None (Some 2%Z) false.
Definition zero_billing_args : Args := mkArgs None None (Some 0%Z) false.

(** A default context that carries a billing tier of its own, and one
    without a project. *)
Definition sample_config : dict :=
  <["bigquery_billing_tier" := VInt 1]> {["region" := VStr "EU"]}.

Definition sample_context : DefaultContext unit :=
  mkDefaultContext (Some (VStr "my-project")) (Some tt) (Some sample_config).

Definition projectless_context : DefaultContext unit :=
  mkDefaultContext None (Some tt) (Some sample_config).

(** The document of a query alone, and what the cell registers for it. *)
Definition query_only_document : value :=
  document ∅ {["query" := VStr "SELECT 1"]} ∅.

Definition query_only_spec : dict :=
  <["email" := VStr "me@example.com"]>
  (<["schedule" := VDict {["interval" := VStr "@daily"]}]>
  (<["tasks" := VDict (three_tasks load_task_init execute_task_built extract_task_init)]> ∅)).


(** An output with a table and a file option, and no path. *)
Definition output_table_option : dict :=
  <["table" := VStr "t2"]> {["format" := VStr "json"]}.

(** * Properties *)

(** ** The Python operations *)

Lemma dict_truth_lookup (d : dict) (k : string) (v : value) :
  d !! k = Some v -> dict_truth d = true.
Proof.
  intros Hk. unfold dict_truth.
  destruct (map_to_list d) as [|kv l] eqn:Hl; [|reflexivity].
  apply map_to_list_empty_iff in Hl. subst d.
  rewrite lookup_empty in Hk. discriminate.
Qed.

Lemma py_in_dict (k : string) (d : dict) :
  py_in k (VDict d) = Ok (bool_decide (is_Some (d !! k))).
Proof. reflexivity. Qed.

Lemma py_in_dict_Some (k : string) (d : dict) (v : value) :
  d !! k = Some v -> py_in k (VDict d) = Ok true.
Proof.
  intros Hk. rewrite py_in_dict. f_equal.
  apply bool_decide_eq_true. eauto.
Qed.

Lemma py_in_dict_None (k : string) (d : dict) :
  d !! k = None -> py_in k (VDict d) = Ok false.
Proof.
  intros Hk. rewrite py_in_dict. f_equal.
  apply bool_decide_eq_false. rewrite Hk. apply is_Some_None.
Qed.

Lemma py_getitem_dict_Some (k : string) (d : dict) (v : value) :
  d !! k = Some v -> py_getitem (VDict d) k = Ok v.
Proof. intros Hk. simpl. rewrite Hk. reflexivity. Qed.

(** The exceptions the Python operations raise. *)
Lemma py_in_raise (k : string) (c : value) (e : exn) :
  py_in k c = Raise e -> e = TypeError.
Proof. destruct c; simpl; congruence. Qed.

Lemma py_getitem_raise (c : value) (k : string) (e : exn) :
  py_getitem c k = Raise e -> e = TypeError \/ e = KeyError k.
Proof.
  destruct c as [| | | | |d]; simpl; try (intros [= <-]; auto).
  destruct (d !! k); intros [= <-]; auto.
Qed.

Lemma py_get_raise (c : value) (k : string) (v : value) (e : exn) :
  py_get c k v = Raise e -> e = AttributeError.
Proof. destruct c; simpl; congruence. Qed.

Lemma py_any_in_raise (ks : list string) (c : value) (e : exn) :
  py_any_in ks c = Raise e -> e = TypeError.
Proof.
  induction ks as [|k ks IH]; simpl; [discriminate|].
  destruct (py_in k c) as [[|]|e'] eqn:Hin; simpl; [discriminate|exact IH|].
  intros [= <-]. eapply py_in_raise, Hin.
Qed.

(** One step of a builder: case on the outcome of the next Python
    operation of the goal; a raising outcome ends the case. *)
Ltac run_step :=
  match goal with
  | |- context [py_in ?k ?c] => destruct (py_in k c) as [[|]|?] eqn:?
  | |- context [py_getitem ?c ?k] => destruct (py_getitem c k) as [?|?] eqn:?
  | |- context [py_get ?c ?k ?v] => destruct (py_get c k v) as [?|?] eqn:?
  | |- context [py_any_in ?ks ?c] => destruct (py_any_in ks c) as [[|]|?] eqn:?
  end;
  cbn [mbind result_bind mret result_ret negb];
  try (intros; discriminate).

(** A Python operation never raises a plain [Exception]. *)
Ltac not_an_exception :=
  match goal with
  | H : py_in _ _ = Raise (Exception _) |- _ =>
      apply py_in_raise in H; discriminate H
  | H : py_getitem _ _ = Raise (Exception _) |- _ =>
      apply py_getitem_raise in H; destruct H; discriminate
  | H : py_get _ _ _ = Raise (Exception _) |- _ =>
      apply py_get_raise in H; discriminate H
  | H : py_any_in _ _ = Raise (Exception _) |- _ =>
      apply py_any_in_raise in H; discriminate H
  end.

(** ** The load stage *)

(** C2 (the code departs from it): with [table] and [path] present and
    [schema] absent, the load builder returns a task whose [mode] is
    [create], not [append]: [schema_exists] is set to [True] whether or
    not the key is there. *)
Theorem load_mode_without_schema_is_create :
  exists cfg : dict,
    _add_load_parameters load_task_init load_no_schema = Ok (cfg, Some cfg)
    /\ cfg !! "schema" = None
    /\ cfg !! "mode" = Some (VStr "create").
Proof.
  eexists. split; [reflexivity|].
  split; reflexivity.
Qed.

(** C3 (the code departs from it): with [table] present, [path] and
    [schema] absent, the load builder raises instead of returning
    [None]. *)
Theorem load_table_only_raises :
  _add_load_parameters load_task_init (VDict {["table" := VStr "t"]})
  = Raise (Exception "Schema is specified, but path is absent.").
Proof. reflexivity. Qed.

(** C6 (the code departs from it): with neither [table] nor [path] and a
    file option present, the load builder returns [None] at line 220 and
    never reaches the check of line 238. *)
Theorem load_file_option_without_path_returns_none :
  _add_load_parameters load_task_init (VDict {["format" := VStr "json"]})
  = Ok (load_task_init, None).
Proof. reflexivity. Qed.

(** The same three facts for every input mapping. *)

Lemma load_table_path_mode (load_task_config d : dict) (t p : value) :
  d !! "table" = Some t -> d !! "path" = Some p ->
  exists cfg : dict,
    _add_load_parameters load_task_config (VDict d) = Ok (cfg, Some cfg)
    /\ cfg !! "mode" = Some (VStr "create").
Proof.
  intros Ht Hp. unfold _add_load_parameters.
  rewrite (py_in_dict_Some _ _ _ Hp), (py_in_dict_Some _ _ _ Ht).
  rewrite (py_getitem_dict_Some _ _ _ Hp), (py_getitem_dict_Some _ _ _ Ht).
  cbn [mbind result_bind mret result_ret].
  destruct (d !! "schema") as [s|] eqn:Hs.
  - rewrite (py_in_dict_Some _ _ _ Hs), (py_getitem_dict_Some _ _ _ Hs).
    cbn. eexists. split; [reflexivity|]. by simplify_map_eq.
  - rewrite (py_in_dict_None _ _ Hs).
    cbn. eexists. split; [reflexivity|]. by simplify_map_eq.
Qed.

Lemma load_table_without_path (load_task_config d : dict) (t : value) :
  d !! "table" = Some t -> d !! "path" = None ->
  _add_load_parameters load_task_config (VDict d)
  = Raise (Exception "Schema is specified, but path is absent.").
Proof.
  intros Ht Hp. unfold _add_load_parameters.
  rewrite (py_in_dict_None _ _ Hp), (py_in_dict_Some _ _ _ Ht).
  rewrite (py_getitem_dict_Some _ _ _ Ht).
  cbn [mbind result_bind mret result_ret].
  destruct (d !! "schema") as [s|] eqn:Hs.
  - rewrite (py_in_dict_Some _ _ _ Hs), (py_getitem_dict_Some _ _ _ Hs). reflexivity.
  - rewrite (py_in_dict_None _ _ Hs). reflexivity.
Qed.

Lemma load_neither_table_nor_path (load_task_config d : dict) :
  d !! "table" = None -> d !! "path" = None ->
  _add_load_parameters load_task_config (VDict d)
  = Ok (match d !! "schema" with
        | Some s => <["schema" := s]> load_task_config
        | None => load_task_config
        end, None).
Proof.
  intros Ht Hp. unfold _add_load_parameters.
  rewrite (py_in_dict_None _ _ Hp), (py_in_dict_None _ _ Ht).
  cbn [mbind result_bind mret result_ret].
  destruct (d !! "schema") as [s|] eqn:Hs.
  - rewrite (py_in_dict_Some _ _ _ Hs), (py_getitem_dict_Some _ _ _ Hs). reflexivity.
  - rewrite (py_in_dict_None _ _ Hs). reflexivity.
Qed.

(** ** What a builder leaves alone

    A builder writes a fixed set of keys into the dictionary it fills;
    every other key keeps its binding, for every input value. *)

(** The builder returned: read the returned dictionaries off the equation
    and resolve the lookups. *)
Ltac frame_done :=
  unfold mret, result_ret; intros; simplify_eq; simplify_map_eq; auto.

Lemma load_frame (load_task_config cfg : dict) (input : value) (r : option dict) (k : string) :
  _add_load_parameters load_task_config input = Ok (cfg, r) ->
  k ∉ load_keys ->
  cfg !! k = load_task_config !! k.
Proof.
  intros Hrun Hk. unfold load_keys in Hk.
  rewrite !not_elem_of_cons in Hk. destruct_and!.
  revert Hrun. unfold _add_load_parameters.
  cbn [mbind result_bind mret result_ret].
  repeat run_step; frame_done.
Qed.

Lemma execute_frame (execute_task_config cfg : dict) (transformation : value)
    (r : option dict) (k : string) :
  _add_execute_parameters execute_task_config transformation = Ok (cfg, r) ->
  k ∉ execute_keys ->
  cfg !! k = execute_task_config !! k.
Proof.
  intros Hrun Hk. unfold execute_keys in Hk.
  rewrite !not_elem_of_cons in Hk. destruct_and!.
  revert Hrun. unfold _add_execute_parameters.
  cbn [mbind result_bind mret result_ret].
  repeat run_step; frame_done.
Qed.

Lemma extract_frame (extract_task_config execute_task_config ext exe : dict)
    (output : value) (r : option dict) (k : string) :
  _add_extract_parameters extract_task_config execute_task_config output
  = Ok (ext, exe, r) ->
  (k ∉ extract_keys -> ext !! k = extract_task_config !! k)
  /\ (k ≠ "table" -> exe !! k = execute_task_config !! k).
Proof.
  unfold extract_keys. rewrite !not_elem_of_cons.
  unfold _add_extract_parameters.
  cbn [mbind result_bind mret result_ret].
  repeat run_step; try case_match; try (intros; discriminate);
    unfold mret, result_ret; intros; simplify_eq;
    split; intros; destruct_and?; simplify_map_eq; auto.
Qed.

(** ** What a builder raises

    Each builder raises one [Exception] of its own.  The load builder's
    second one, of line 240, and the extract builder's first one, of line
    277, are never raised. *)

Ltac raise_leaf :=
  unfold mret, result_ret;
  first
    [ discriminate
    | by intros [= <-]
    | intros [= ->]; not_an_exception ].

Lemma load_exceptions (load_task_config : dict) (input : value) (msg : string) :
  _add_load_parameters load_task_config input = Raise (Exception msg) ->
  msg = "Schema is specified, but path is absent.".
Proof.
  unfold _add_load_parameters.
  cbn [mbind result_bind mret result_ret].
  repeat run_step; raise_leaf.
Qed.

Lemma execute_exceptions (execute_task_config : dict) (transformation : value)
    (msg : string) :
  _add_execute_parameters execute_task_config transformation = Raise (Exception msg) ->
  msg = "Query is not specified, but at least one query option is.".
Proof.
  unfold _add_execute_parameters.
  cbn [mbind result_bind mret result_ret].
  repeat run_step; raise_leaf.
Qed.

Lemma extract_exceptions (extract_task_config execute_task_config : dict)
    (output : value) (msg : string) :
  _add_extract_parameters extract_task_config execute_task_config output
  = Raise (Exception msg) ->
  msg = "Path is not specified, but at least one file option is.".
Proof.
  unfold _add_extract_parameters.
  cbn [mbind result_bind mret result_ret].
  repeat run_step.
  all: rewrite ?lookup_insert_eq, ?bool_decide_eq_true_2 by eauto.
  all: cbn [negb]; raise_leaf.
Qed.

(** ** The extract stage *)

(** C8: when the output mapping has no [table], the extract builder
    returns [None] without raising, whatever else the mapping holds, and
    hands back both task dictionaries as it received them. *)
Theorem extract_without_table_is_absent
    (extract_task_config execute_task_config d : dict) :
  d !! "table" = None ->
  _add_extract_parameters extract_task_config execute_task_config (VDict d)
  = Ok (extract_task_config, execute_task_config, None).
Proof.
  intros Ht. unfold _add_extract_parameters.
  rewrite (py_in_dict_None _ _ Ht). reflexivity.
Qed.

Lemma extract_without_table_is_absent_witness :
  output_path_only !! "table" = None
  /\ _add_extract_parameters extract_task_init execute_task_built (VDict output_path_only)
     = Ok (extract_task_init, execute_task_built, None).
Proof.
  split; [reflexivity|].
  apply (extract_without_table_is_absent extract_task_init execute_task_built
           output_path_only).
  reflexivity.
Defined.

(** C10: the extract builder never raises "Path is specified but table is
    not.": the test of line 276 reads the execute dictionary after line
    269 has written [table] into it.  And the branch is live: with [table]
    and [path] in the output mapping the builder returns, with the table
    in the execute dictionary and the path in the extract dictionary. *)
Theorem extract_path_without_table_never_raised :
  (forall (extract_task_config execute_task_config : dict) (output : value),
      _add_extract_parameters extract_task_config execute_task_config output
      <> Raise (Exception "Path is specified but table is not."))
  /\ (forall (extract_task_config execute_task_config d : dict) (t p : value),
      d !! "table" = Some t -> d !! "path" = Some p ->
      exists ext : dict,
        _add_extract_parameters extract_task_config execute_task_config (VDict d)
        = Ok (ext, <["table" := t]> execute_task_config, None)
        /\ ext !! "path" = Some p).
Proof.
  split.
  - intros extract_task_config execute_task_config output.
    unfold _add_extract_parameters.
    cbn [mbind result_bind mret result_ret].
    repeat run_step.
    all: rewrite ?lookup_insert_eq, ?bool_decide_eq_true_2 by eauto.
    all: cbn [negb]; unfold mret, result_ret.
    all: try discriminate.
    all: intros [= ->]; not_an_exception.
  - intros extract_task_config execute_task_config d t p Ht Hp.
    unfold _add_extract_parameters.
    rewrite (py_in_dict_Some _ _ _ Ht), (py_in_dict_Some _ _ _ Hp).
    rewrite (py_getitem_dict_Some _ _ _ Ht), (py_getitem_dict_Some _ _ _ Hp).
    cbn [mbind result_bind mret result_ret].
    rewrite lookup_insert_eq.
    rewrite bool_decide_eq_true_2 by eauto.
    cbn. eexists. split; [reflexivity|]. by simplify_map_eq.
Qed.

Lemma extract_path_without_table_never_raised_witness :
  output_table_path !! "table" = Some (VStr "t2")
  /\ output_table_path !! "path" = Some (VStr "gs://y")
  /\ exists ext : dict,
       _add_extract_parameters extract_task_init execute_task_built
         (VDict output_table_path)
       = Ok (ext, <["table" := VStr "t2"]> execute_task_built, None)
       /\ ext !! "path" = Some (VStr "gs://y").
Proof.
  split; [reflexivity|]. split; [reflexivity|].
  apply (proj2 extract_path_without_table_never_raised
           extract_task_init execute_task_built output_table_path
           (VStr "t2") (VStr "gs://y")); reflexivity.
Defined.

(** ** The query parameters *)

Lemma query_param_ok_fields (p : value) :
  query_param_ok p = true ->
  exists (d : dict) (n t v : value),
    p = VDict d
    /\ d !! "name" = Some n /\ d !! "type" = Some t /\ d !! "value" = Some v.
Proof.
  destruct p as [| | | | |d]; simpl; try discriminate.
  intros Hok. repeat case_match; try discriminate.
  eauto 10.
Qed.

Lemma parse_params_ok (params : list value) :
  forallb query_param_ok params = true ->
  forall parsed_params : list value,
  exists out : list value,
    parse_params params parsed_params = Ok (parsed_params ++ out)%list
    /\ Forall2 compiled_from params out.
Proof.
  induction params as [|p params IH]; intros Hok parsed_params.
  - exists []. rewrite app_nil_r. split; [reflexivity|constructor].
  - simpl in Hok. apply andb_prop in Hok as [Hp Hps].
    apply query_param_ok_fields in Hp as (d & n & t & v & -> & Hn & Ht & Hv).
    destruct (IH Hps (parsed_params ++
      [VDict (<["name" := n]>
             (<["parameterType" := VDict {["type" := t]}]>
             (<["parameterValue" := VDict {["value" := v]}]> ∅)))])%list)
      as (out & Hrun & Hout).
    eexists (_ :: out). split.
    + simpl. rewrite Hn, Ht, Hv. cbn [mbind result_bind].
      rewrite Hrun, <- app_assoc. reflexivity.
    + constructor; [|exact Hout].
      exists d, n, t, v. auto.
Qed.

(** C7: on a parameters document that the schema check accepts, the
    extractor returns the sequence of the compiled parameters: one per
    input parameter, in the order of the input, each made of the name,
    [parameterType.type] and [parameterValue.value] of its parameter and
    of nothing else.  The environment is left as it was. *)
Theorem query_parameters_compiled
    (parse_config : option string -> Env -> bool -> option value)
    (args : Args) (cell_body : option string) (env : Env)
    (sql : string) (d : dict) (ps : list value) :
  parse_config cell_body env false = Some (VDict d) ->
  arg_query args = Some sql ->
  query_params_schema (VDict d) = true ->
  d !! "parameters" = Some (VList ps) ->
  exists out : list value,
    _get_query_parameters parse_config args cell_body env = (Ok (VList out), env)
    /\ Forall2 compiled_from ps out.
Proof.
  intros Hparse Hsql Hschema Hps.
  assert (Hok : forallb query_param_ok ps = true).
  { simpl in Hschema. rewrite Hps in Hschema. exact Hschema. }
  destruct (parse_params_ok ps Hok []) as (out & Hrun & Hout).
  exists out. split; [|exact Hout].
  unfold _get_query_parameters, mbind, cell_bind, notebook_environment, call, lift.
  rewrite Hparse, Hsql. cbn [mret cell_ret].
  cbn [py_truth]. rewrite (dict_truth_lookup _ _ _ Hps).
  unfold jsonschema_validate. rewrite Hschema.
  rewrite (py_getitem_dict_Some _ _ _ Hps). cbn [py_iter].
  rewrite Hrun. reflexivity.
Qed.

Lemma query_parameters_compiled_witness :
  exists out : list value,
    _get_query_parameters (fun _ _ _ => Some (VDict params_document))
      query_args None ∅ = (Ok (VList out), ∅)
    /\ Forall2 compiled_from
         [VDict (<["name" := VStr "n"]>
                (<["type" := VStr "INTEGER"]> {["value" := VInt 3]}));
          VDict (<["name" := VStr "s"]>
                (<["type" := VStr "STRING"]> {["value" := VStr "a"]}))]
         out.
Proof.
  apply (query_parameters_compiled (fun _ _ _ => Some (VDict params_document))
           query_args None ∅ "q" params_document); reflexivity.
Defined.

(** ** The pipeline cell *)

(** C1 (the code departs from it): the document with only a table as
    input, a query and an empty output does not compile to a pipeline of
    one execute task: the load builder raises, and nothing is registered. *)
Theorem pipeline_table_query_raises (Pipeline_py : Pipeline -> option string) (env : Env) :
  _pipeline_cell (fun _ _ _ => Some table_query_document)
    Pipeline_py pipeline_args None env
  = (Raise (Exception "Schema is specified, but path is absent."), env).
Proof. reflexivity. Qed.

(** C5 (the code departs from it): a document whose three sections are
    empty compiles without error; the pipeline registered holds the three
    tasks, each with nothing but its [type] and [up_stream]. *)
Theorem pipeline_without_stages_registers (Pipeline_py : Pipeline -> option string) (env : Env) :
  _pipeline_cell (fun _ _ _ => Some (document ∅ ∅ ∅)) Pipeline_py pipeline_args None env
  = (Ok None, <["p" := ObjPipeline (mkPipeline "p" empty_document_spec)]> env).
Proof. reflexivity. Qed.

(** The builders keep the [type] and [up_stream] of the dictionaries the
    cell hands them. *)

Ltac key_not_in :=
  unfold load_keys, execute_keys, extract_keys;
  rewrite !not_elem_of_cons;
  repeat split; first [discriminate | apply not_elem_of_nil].

Lemma load_built (cfg : dict) (input : value) (r : option dict) :
  _add_load_parameters {["type" := VStr "pydatalab.bq.load"]} input = Ok (cfg, r) ->
  dict_truth cfg = true /\ cfg !! "up_stream" = None.
Proof.
  intros Hrun. split.
  - apply (dict_truth_lookup cfg "type" (VStr "pydatalab.bq.load")).
    rewrite (load_frame _ _ _ _ "type" Hrun) by key_not_in. reflexivity.
  - rewrite (load_frame _ _ _ _ "up_stream" Hrun) by key_not_in. reflexivity.
Qed.

Lemma execute_built (cfg : dict) (transformation : value) (r : option dict) :
  _add_execute_parameters execute_task_init transformation = Ok (cfg, r) ->
  cfg !! "type" = Some (VStr "pydatalab.bq.execute")
  /\ cfg !! "up_stream" = Some (VList [VStr load_task_config_name]).
Proof.
  intros Hrun. split.
  - rewrite (execute_frame _ _ _ _ "type" Hrun) by key_not_in. reflexivity.
  - rewrite (execute_frame _ _ _ _ "up_stream" Hrun) by key_not_in. reflexivity.
Qed.

Lemma extract_built (execute_task_config ext exe : dict) (output : value) (r : option dict) :
  _add_extract_parameters extract_task_init execute_task_config output = Ok (ext, exe, r) ->
  dict_truth ext = true
  /\ ext !! "up_stream" = Some (VList [VStr execute_task_config_name])
  /\ exe !! "type" = execute_task_config !! "type"
  /\ exe !! "up_stream" = execute_task_config !! "up_stream".
Proof.
  intros Hrun.
  destruct (extract_frame _ _ _ _ _ _ "type" Hrun) as [Hext_type Hexe_type].
  destruct (extract_frame _ _ _ _ _ _ "up_stream" Hrun) as [Hext_up Hexe_up].
  split; [|split; [|split]].
  - apply (dict_truth_lookup ext "type" (VStr "pydatalab.bq.extract")).
    rewrite Hext_type by key_not_in. reflexivity.
  - rewrite Hext_up by key_not_in. reflexivity.
  - apply Hexe_type. discriminate.
  - apply Hexe_up. discriminate.
Qed.

(** One step of the cell: case on the outcome of the next builder or
    document access. *)
Ltac cell_step :=
  match goal with
  | |- context [_add_load_parameters ?a ?b] =>
      destruct (_add_load_parameters a b) as [[? ?]|?] eqn:?
  | |- context [_add_execute_parameters ?a ?b] =>
      destruct (_add_execute_parameters a b) as [[? ?]|?] eqn:?
  | |- context [_add_extract_parameters ?a ?b ?c] =>
      destruct (_add_extract_parameters a b c) as [[[? ?] ?]|?] eqn:?
  | |- context [py_get ?c ?k ?v] => destruct (py_get c k v) as [?|?] eqn:?
  | |- context [py_getitem ?c ?k] => destruct (py_getitem c k) as [?|?] eqn:?
  end;
  cbn beta iota zeta.

Lemma pipeline_cell_outcome
    (parse_config : option string -> Env -> bool -> option value)
    (Pipeline_py : Pipeline -> option string)
    (args : Args) (cell_body : option string) (env env' : Env)
    (r : result (option string)) :
  _pipeline_cell parse_config Pipeline_py args cell_body env = (r, env') ->
  outcome args env r env'.
Proof.
  unfold _pipeline_cell.
  destruct (arg_name args) as [name|] eqn:Hname;
    [|intros [= <- <-]; constructor].
  unfold mbind, cell_bind, lift, raise, call, notebook_environment,
    notebook_environment_set, mret, cell_ret.
  cbn beta iota zeta.
  destruct (parse_config cell_body env true) as [bq_pipeline_config|];
    cbn beta iota zeta; [|intros [= <- <-]; constructor].
  repeat (cell_step; [|intros [= <- <-]; constructor]).
  match goal with H : _add_load_parameters _ _ = Ok _ |- _ =>
    apply load_built in H as [Hload_truth Hload_up] end.
  match goal with H : _add_execute_parameters _ _ = Ok _ |- _ =>
    apply execute_built in H as [Hexe_type Hexe_up] end.
  match goal with H : _add_extract_parameters _ _ _ = Ok _ |- _ =>
    apply extract_built in H as (Hext_truth & Hext_up & Htype & Hup) end.
  rewrite Hexe_type in Htype. rewrite Hexe_up in Hup.
  rewrite Hload_truth, Hext_truth, (dict_truth_lookup _ _ _ Htype).
  cbn beta iota zeta delta [negb andb].
  match goal with
  | |- context [<[_ := VDict ?ext]> (<[_ := VDict ?exe]> (<[_ := VDict ?load]> ∅))] =>
      assert (Htasks : forall spec : dict,
        <["tasks" := VDict (three_tasks load exe ext)]> spec !! "tasks"
        = Some (VDict (three_tasks load exe ext)))
        by (intros; apply lookup_insert_eq);
      assert (Hchained : chained (three_tasks load exe ext))
        by (exists load, exe, ext; auto)
  end.
  destruct (arg_debug args); [destruct (Pipeline_py _)|];
    intros [= <- <-];
    (eapply Registered; [exact Hname|apply Htasks|exact Hchained|eauto]).
Qed.

Lemma chained_upstream_closed (tasks : dict) :
  chained tasks -> upstream_closed tasks.
Proof.
  intros (load & execute & extract & -> & Hload & Hexecute & Hextract).
  intros t cfg ups u Ht Hcfg Hu. unfold three_tasks in *.
  destruct (decide (t = extract_task_config_name)) as [->|Hne1].
  { rewrite lookup_insert_eq in Ht. simplify_eq.
    apply list_elem_of_singleton in Hu as ->.
    exists execute_task_config_name. split; [reflexivity|].
    rewrite lookup_insert_ne by discriminate.
    rewrite lookup_insert_eq. eauto. }
  rewrite lookup_insert_ne in Ht by congruence.
  destruct (decide (t = execute_task_config_name)) as [->|Hne2].
  { rewrite lookup_insert_eq in Ht. simplify_eq.
    apply list_elem_of_singleton in Hu as ->.
    exists load_task_config_name. split; [reflexivity|].
    rewrite !lookup_insert_ne by discriminate.
    rewrite lookup_insert_eq. eauto. }
  rewrite lookup_insert_ne in Ht by congruence.
  destruct (decide (t = load_task_config_name)) as [->|Hne3].
  { rewrite lookup_insert_eq in Ht. simplify_eq. }
  rewrite lookup_insert_ne in Ht by congruence.
  rewrite lookup_empty in Ht. discriminate.
Qed.

(** The [Exception]s of a run are the one for the missing name and those
    of the builders: "Pipeline has no tasks to execute." is not among
    them. *)
Ltac cell_raise_leaf :=
  intros; simplify_eq;
  unfold pipeline_messages; rewrite !elem_of_cons;
  first
    [ not_an_exception
    | match goal with
      | H : _add_load_parameters _ _ = Raise _ |- _ =>
          apply load_exceptions in H; auto
      | H : _add_execute_parameters _ _ = Raise _ |- _ =>
          apply execute_exceptions in H; auto
      | H : _add_extract_parameters _ _ _ = Raise _ |- _ =>
          apply extract_exceptions in H; auto 6
      end ].

Lemma pipeline_cell_exceptions
    (parse_config : option string -> Env -> bool -> option value)
    (Pipeline_py : Pipeline -> option string)
    (args : Args) (cell_body : option string) (env env' : Env) (msg : string) :
  _pipeline_cell parse_config Pipeline_py args cell_body env
  = (Raise (Exception msg), env') ->
  msg ∈ pipeline_messages.
Proof.
  unfold _pipeline_cell.
  destruct (arg_name args) as [name|] eqn:Hname.
  2:{ intros [= <-]. unfold pipeline_messages. rewrite !elem_of_cons. auto. }
  unfold mbind, cell_bind, lift, raise, call, notebook_environment,
    notebook_environment_set, mret, cell_ret.
  cbn beta iota zeta.
  destruct (parse_config cell_body env true) as [bq_pipeline_config|];
    cbn beta iota zeta; [|discriminate].
  repeat (cell_step; [|cell_raise_leaf]).
  match goal with H : _add_load_parameters _ _ = Ok _ |- _ =>
    apply load_built in H as [Hload_truth Hload_up] end.
  rewrite Hload_truth.
  cbn beta iota zeta delta [negb andb].
  destruct (arg_debug args); [destruct (Pipeline_py _)|]; discriminate.
Qed.

Lemma pipeline_no_tasks_never_raised
    (parse_config : option string -> Env -> bool -> option value)
    (Pipeline_py : Pipeline -> option string)
    (args : Args) (cell_body : option string) (env : Env) :
  fst (_pipeline_cell parse_config Pipeline_py args cell_body env)
  <> Raise (Exception "Pipeline has no tasks to execute.").
Proof.
  destruct (_pipeline_cell parse_config Pipeline_py args cell_body env)
    as [r env'] eqn:Hrun.
  simpl. intros ->.
  apply pipeline_cell_exceptions in Hrun.
  unfold pipeline_messages in Hrun. rewrite !elem_of_cons in Hrun.
  destruct Hrun as [H|[H|[H|[H|H]]]]; try discriminate H.
  by apply elem_of_nil in H.
Qed.

(** C9: a run of the pipeline cell that raises one of the cell's own
    errors (anything but an error of the renderer called after the
    registration) leaves the notebook environment as it was; a run that
    changes the environment went through every stage and the assembly; and
    the query-parameter extractor, whose schema check raises
    [ValidationError], never changes the environment. *)
Theorem registry_unchanged_on_failure
    (parse_config : option string -> Env -> bool -> option value)
    (Pipeline_py : Pipeline -> option string)
    (args : Args) (cell_body : option string) (env : Env) :
  (forall (e : exn) (env' : Env),
      _pipeline_cell parse_config Pipeline_py args cell_body env = (Raise e, env') ->
      e <> CollaboratorError ->
      env' = env)
  /\ (forall (r : result (option string)) (env' : Env),
      _pipeline_cell parse_config Pipeline_py args cell_body env = (r, env') ->
      env' <> env ->
      r = Raise CollaboratorError \/ exists py, r = Ok py)
  /\ (forall (r : result value) (env' : Env),
      _get_query_parameters parse_config args cell_body env = (r, env') ->
      env' = env).
Proof.
  split; [|split].
  - intros e env' Hrun He.
    apply pipeline_cell_outcome in Hrun.
    inversion Hrun as [e'|name spec tasks r' Hname Hspec Hchained Hr]; [reflexivity|].
    destruct Hr as [Hr|[py Hr]]; [|discriminate Hr].
    injection Hr as Hr. contradiction.
  - intros r env' Hrun Henv.
    apply pipeline_cell_outcome in Hrun.
    inversion Hrun as [e'|name spec tasks r' Hname Hspec Hchained Hr]; subst; [congruence|].
    exact Hr.
  - intros r env'.
    unfold _get_query_parameters, mbind, cell_bind, lift, raise, call,
      notebook_environment, mret, cell_ret.
    cbn beta iota zeta.
    destruct (parse_config cell_body env false) as [config|];
      cbn beta iota zeta; [|by intros [= <- <-]].
    destruct (arg_query args); [|by intros [= <- <-]].
    destruct (py_truth config); [|by intros [= <- <-]].
    destruct (jsonschema_validate config query_params_schema);
      cbn beta iota zeta; [|by intros [= <- <-]].
    destruct (py_getitem config "parameters") as [params|];
      cbn beta iota zeta; [|by intros [= <- <-]].
    destruct (py_iter params) as [items|];
      cbn beta iota zeta; [|by intros [= <- <-]].
    destruct (parse_params items []); cbn beta iota zeta; by intros [= <- <-].
Qed.

Lemma registry_unchanged_on_failure_witness :
  _pipeline_cell (fun _ _ _ => Some table_query_document) (fun _ => None)
    pipeline_args None busy_env
  = (Raise (Exception "Schema is specified, but path is absent."), busy_env)
  /\ Exception "Schema is specified, but path is absent." <> CollaboratorError
  /\ busy_env = busy_env.
Proof.
  split; [reflexivity|]. split; [discriminate|].
  apply (proj1 (registry_unchanged_on_failure
                  (fun _ _ _ => Some table_query_document) (fun _ => None)
                  pipeline_args None busy_env)
           (Exception "Schema is specified, but path is absent.") busy_env);
    [reflexivity|discriminate].
Defined.

(** The end-to-end document compiles to the three tasks with their
    defaults; the table of the output is written into the execute task. *)
Example pipeline_end_to_end (Pipeline_py : Pipeline -> option string) (env : Env) :
  _pipeline_cell (fun _ _ _ => Some full_document) Pipeline_py pipeline_args None env
  = (Ok None, <["p" := ObjPipeline full_pipeline]> env).
Proof. reflexivity. Qed.

(** In every pipeline that a run of the cell puts into the environment,
    every name in a task's [up_stream] is a key of the task mapping: the
    cell inserts all three task dictionaries, whatever their builders
    returned. *)
Lemma registered_pipeline_upstream
    (parse_config : option string -> Env -> bool -> option value)
    (Pipeline_py : Pipeline -> option string)
    (args : Args) (cell_body : option string) (env env' : Env)
    (r : result (option string)) (name : string) (p : Pipeline) :
  _pipeline_cell parse_config Pipeline_py args cell_body env = (r, env') ->
  env' !! name = Some (ObjPipeline p) ->
  env !! name <> Some (ObjPipeline p) ->
  exists tasks : dict,
    pipeline_spec p !! "tasks" = Some (VDict tasks)
    /\ (forall (execute : dict) (ups : list value),
         tasks !! execute_task_config_name = Some (VDict execute) ->
         execute !! "up_stream" = Some (VList ups) ->
         VStr load_task_config_name ∈ ups ->
         is_Some (tasks !! load_task_config_name))
    /\ (forall (extract : dict) (ups : list value),
         tasks !! extract_task_config_name = Some (VDict extract) ->
         extract !! "up_stream" = Some (VList ups) ->
         VStr execute_task_config_name ∈ ups ->
         is_Some (tasks !! execute_task_config_name))
    /\ upstream_closed tasks.
Proof.
  intros Hrun Hnew Hold.
  apply pipeline_cell_outcome in Hrun.
  inversion Hrun as [e|name' spec tasks r' Hname Hspec Hchained Hr]; subst;
    [contradiction|].
  destruct (decide (name' = name)) as [->|Hne];
    [|rewrite lookup_insert_ne in Hnew by exact Hne; contradiction].
  rewrite lookup_insert_eq in Hnew. injection Hnew as <-.
  pose proof (chained_upstream_closed tasks Hchained) as Hclosed.
  exists tasks. split; [exact Hspec|].
  split; [|split; [|exact Hclosed]].
  - intros execute ups Ht Hups Hin.
    destruct (Hclosed _ _ _ _ Ht Hups Hin) as (s & [= <-] & Hs). exact Hs.
  - intros extract ups Ht Hups Hin.
    destruct (Hclosed _ _ _ _ Ht Hups Hin) as (s & [= <-] & Hs). exact Hs.
Qed.

Lemma registered_pipeline_upstream_witness :
  _pipeline_cell (fun _ _ _ => Some full_document) (fun _ => None)
    pipeline_args None busy_env
  = (Ok None, <["p" := ObjPipeline full_pipeline]> busy_env)
  /\ (<["p" := ObjPipeline full_pipeline]> busy_env) !! "p"
     = Some (ObjPipeline full_pipeline)
  /\ busy_env !! "p" <> Some (ObjPipeline full_pipeline)
  /\ exists tasks : dict,
       pipeline_spec full_pipeline !! "tasks" = Some (VDict tasks)
       /\ (forall (execute : dict) (ups : list value),
            tasks !! execute_task_config_name = Some (VDict execute) ->
            execute !! "up_stream" = Some (VList ups) ->
            VStr load_task_config_name ∈ ups ->
            is_Some (tasks !! load_task_config_name))
       /\ (forall (extract : dict) (ups : list value),
            tasks !! extract_task_config_name = Some (VDict extract) ->
            extract !! "up_stream" = Some (VList ups) ->
            VStr execute_task_config_name ∈ ups ->
            is_Some (tasks !! execute_task_config_name))
       /\ upstream_closed tasks.
Proof.
  split; [reflexivity|]. split; [reflexivity|]. split; [discriminate|].
  apply (registered_pipeline_upstream
           (fun _ _ _ => Some full_document) (fun _ => None)
           pipeline_args None busy_env
           (<["p" := ObjPipeline full_pipeline]> busy_env)
           (Ok None) "p" full_pipeline);
    [reflexivity|reflexivity|discriminate].
Defined.


(** C4 (the code departs from it): for the document of a query alone the
    load builder and the extract builder return [None], no load stage and
    no extract stage, and yet the pipeline registered holds a load task
    and an extract task, and its execute task names the load task in its
    [up_stream]: the edge of line 143 is never removed, and lines 157-162
    test the dictionaries, not what the builders returned. *)
Theorem pipeline_upstream_to_absent_load (Pipeline_py : Pipeline -> option string) (env : Env) :
  _add_load_parameters load_task_init (VDict ∅) = Ok (load_task_init, None)
  /\ _add_extract_parameters extract_task_init execute_task_built (VDict ∅)
     = Ok (extract_task_init, execute_task_built, None)
  /\ _pipeline_cell (fun _ _ _ => Some query_only_document) Pipeline_py
       pipeline_args None env
     = (Ok None, <["p" := ObjPipeline (mkPipeline "p" query_only_spec)]> env)
  /\ query_only_spec !! "tasks"
     = Some (VDict (three_tasks load_task_init execute_task_built extract_task_init))
  /\ execute_task_built !! "up_stream" = Some (VList [VStr load_task_config_name]).
Proof. repeat split; reflexivity. Qed.

(** * Further properties *)

(** ** The builders on a mapping *)

(** Resolve the membership tests and reads of a key whose binding is
    known. *)
Ltac dict_lookups :=
  repeat match goal with
  | H : ?d !! ?k = Some _ |- context [py_in ?k (VDict ?d)] =>
      rewrite (py_in_dict_Some k d _ H)
  | H : ?d !! ?k = None |- context [py_in ?k (VDict ?d)] =>
      rewrite (py_in_dict_None k d H)
  | H : ?d !! ?k = Some _ |- context [py_getitem (VDict ?d) ?k] =>
      rewrite (py_getitem_dict_Some k d _ H)
  end.

Lemma load_with_path (load_task_config d : dict) (p : value) :
  d !! "path" = Some p ->
  exists cfg : dict,
    _add_load_parameters load_task_config (VDict d) = Ok (cfg, Some cfg)
    /\ cfg =
       <["strict" := default (VBool true) (d !! "strict")]>
       (<["skip" := default (VInt 0) (d !! "skip")]>
       (<["quote" := default (VStr double_quote) (d !! "quote")]>
       (<["delimiter" := default (VStr ",") (d !! "delimiter")]>
       (<["format" := default (VStr "csv") (d !! "format")]>
       (match d !! "table" with
        | Some _ => <["mode" := VStr "create"]>
        | None => fun c => c
        end
       (match d !! "schema" with
        | Some s => <["schema" := s]>
        | None => fun c => c
        end
       (match d !! "table" with
        | Some t => <["table" := t]>
        | None => fun c => c
        end
       (<["path" := p]> load_task_config)))))))).
Proof.
  intros Hp. unfold _add_load_parameters.
  destruct (d !! "table") as [t|] eqn:Ht; destruct (d !! "schema") as [s|] eqn:Hs;
    dict_lookups; cbn [mbind result_bind mret result_ret negb py_get];
    eexists; (split; [reflexivity|reflexivity]).
Qed.

(** X1: on an input mapping, whenever the load builder returns, it returns
    the dictionary it filled if the mapping has a [path], and [None] if
    it has none. *)
Theorem load_returns_task_iff_path (load_task_config cfg d : dict) (r : option dict) :
  _add_load_parameters load_task_config (VDict d) = Ok (cfg, r) ->
  r = if bool_decide (is_Some (d !! "path")) then Some cfg else None.
Proof.
  intros Hrun.
  destruct (d !! "path") as [p|] eqn:Hp.
  - destruct (load_with_path load_task_config d p Hp) as (cfg' & Hrun' & _).
    rewrite Hrun' in Hrun. injection Hrun as <- <-.
    rewrite bool_decide_eq_true_2 by eauto. reflexivity.
  - rewrite bool_decide_eq_false_2 by (apply is_Some_None).
    destruct (d !! "table") as [t|] eqn:Ht.
    + rewrite (load_table_without_path _ _ _ Ht Hp) in Hrun. discriminate.
    + rewrite (load_neither_table_nor_path _ _ Ht Hp) in Hrun. by injection Hrun.
Qed.

Lemma load_returns_task_iff_path_witness :
  Some full_load_task
  = if bool_decide (is_Some (full_input !! "path")) then Some full_load_task else None.
Proof.
  apply (load_returns_task_iff_path load_task_init full_load_task full_input
           (Some full_load_task)).
  reflexivity.
Defined.

(** X2: on an input mapping with a [path] the load builder returns a
    task, and each of [format], [delimiter], [quote], [skip] and [strict]
    is the value of the input when the input has the key, and [csv], the
    comma, the double quote, [0] and [True] otherwise. *)
Theorem load_file_option_defaults (load_task_config d : dict) (p : value) :
  d !! "path" = Some p ->
  exists cfg : dict,
    _add_load_parameters load_task_config (VDict d) = Ok (cfg, Some cfg)
    /\ cfg !! "format" = Some (default (VStr "csv") (d !! "format"))
    /\ cfg !! "delimiter" = Some (default (VStr ",") (d !! "delimiter"))
    /\ cfg !! "quote" = Some (default (VStr double_quote) (d !! "quote"))
    /\ cfg !! "skip" = Some (default (VInt 0) (d !! "skip"))
    /\ cfg !! "strict" = Some (default (VBool true) (d !! "strict")).
Proof.
  intros Hp.
  destruct (load_with_path load_task_config d p Hp) as (cfg & Hrun & ->).
  eexists. split; [exact Hrun|].
  repeat split; by simplify_map_eq.
Qed.

Lemma load_file_option_defaults_witness :
  exists cfg : dict,
    _add_load_parameters load_task_init (VDict full_input) = Ok (cfg, Some cfg)
    /\ cfg !! "format" = Some (default (VStr "csv") (full_input !! "format"))
    /\ cfg !! "delimiter" = Some (default (VStr ",") (full_input !! "delimiter"))
    /\ cfg !! "quote" = Some (default (VStr double_quote) (full_input !! "quote"))
    /\ cfg !! "skip" = Some (default (VInt 0) (full_input !! "skip"))
    /\ cfg !! "strict" = Some (default (VBool true) (full_input !! "strict")).
Proof.
  apply (load_file_option_defaults load_task_init full_input (VStr "gs://x")).
  reflexivity.
Defined.

(** X3: on an input mapping with a [path], the load task the cell starts
    with keeps its [type], takes [path], [table] and [schema] as the input
    has them, and gets a [mode], which is [create], exactly when the input
    has a [table]. *)
Theorem load_copies_document_keys (d : dict) (p : value) :
  d !! "path" = Some p ->
  exists cfg : dict,
    _add_load_parameters load_task_init (VDict d) = Ok (cfg, Some cfg)
    /\ cfg !! "type" = Some (VStr "pydatalab.bq.load")
    /\ cfg !! "path" = Some p
    /\ cfg !! "table" = d !! "table"
    /\ cfg !! "schema" = d !! "schema"
    /\ cfg !! "mode" = (if bool_decide (is_Some (d !! "table"))
                        then Some (VStr "create") else None).
Proof.
  intros Hp.
  destruct (load_with_path load_task_init d p Hp) as (cfg & Hrun & ->).
  eexists. split; [exact Hrun|].
  unfold load_task_init.
  destruct (d !! "table") as [t|]; destruct (d !! "schema") as [s|];
    repeat split; by simplify_map_eq.
Qed.

Lemma load_copies_document_keys_witness :
  exists cfg : dict,
    _add_load_parameters load_task_init (VDict full_input) = Ok (cfg, Some cfg)
    /\ cfg !! "type" = Some (VStr "pydatalab.bq.load")
    /\ cfg !! "path" = Some (VStr "gs://x")
    /\ cfg !! "table" = full_input !! "table"
    /\ cfg !! "schema" = full_input !! "schema"
    /\ cfg !! "mode" = (if bool_decide (is_Some (full_input !! "table"))
                        then Some (VStr "create") else None).
Proof.
  apply (load_copies_document_keys full_input (VStr "gs://x")).
  reflexivity.
Defined.

Lemma py_any_in_dict (ks : list string) (d : dict) :
  py_any_in ks (VDict d)
  = Ok (bool_decide (Exists (fun k => is_Some (d !! k)) ks)).
Proof.
  induction ks as [|k ks IH].
  - cbn [py_any_in]. rewrite bool_decide_eq_false_2; [reflexivity|]. by intros H%Exists_nil.
  - cbn [py_any_in]. destruct (d !! k) as [v|] eqn:Hk.
    + rewrite (py_in_dict_Some _ _ _ Hk). cbn [mbind result_bind].
      rewrite bool_decide_eq_true_2; [reflexivity|]. left. rewrite Hk. eauto.
    + rewrite (py_in_dict_None _ _ Hk). cbn [mbind result_bind].
      rewrite IH. f_equal. apply bool_decide_ext.
      rewrite Exists_cons, Hk. split; [tauto|].
      intros [H|H]; [by apply is_Some_None in H|exact H].
Qed.

(** X4: on a transformation mapping with a [query] the execute builder
    returns the dictionary it filled: the query as given, [large] of
    default [True], [mode] of default [create], and every other key as it
    was. *)
Theorem execute_with_query (execute_task_config d : dict) (q : value) :
  d !! "query" = Some q ->
  exists cfg : dict,
    _add_execute_parameters execute_task_config (VDict d) = Ok (cfg, Some cfg)
    /\ cfg !! "query" = Some q
    /\ cfg !! "large" = Some (default (VBool true) (d !! "large"))
    /\ cfg !! "mode" = Some (default (VStr "create") (d !! "mode"))
    /\ forall k : string, k ∉ execute_keys -> cfg !! k = execute_task_config !! k.
Proof.
  intros Hq. unfold _add_execute_parameters. dict_lookups.
  cbn [mbind result_bind mret result_ret py_get].
  eexists. split; [reflexivity|].
  split; [|split; [|split]]; try by simplify_map_eq.
  intros k Hk. unfold execute_keys in Hk.
  rewrite !not_elem_of_cons in Hk. destruct_and!. by simplify_map_eq.
Qed.

Lemma execute_with_query_witness :
  exists cfg : dict,
    _add_execute_parameters execute_task_init (VDict {["query" := VStr "SELECT 1"]})
    = Ok (cfg, Some cfg)
    /\ cfg !! "query" = Some (VStr "SELECT 1")
    /\ cfg !! "large"
       = Some (default (VBool true) (({["query" := VStr "SELECT 1"]} : dict) !! "large"))
    /\ cfg !! "mode"
       = Some (default (VStr "create") (({["query" := VStr "SELECT 1"]} : dict) !! "mode"))
    /\ forall k : string, k ∉ execute_keys -> cfg !! k = execute_task_init !! k.
Proof.
  apply (execute_with_query execute_task_init {["query" := VStr "SELECT 1"]}
           (VStr "SELECT 1")).
  reflexivity.
Defined.

(** X5: on a transformation mapping without [query] the execute builder
    raises exactly when [large] or [mode] is there, and otherwise returns
    [None] with the dictionary as it was. *)
Theorem execute_without_query (execute_task_config d : dict) :
  d !! "query" = None ->
  _add_execute_parameters execute_task_config (VDict d)
  = if bool_decide (Exists (fun k => is_Some (d !! k)) ["large"; "mode"])
    then Raise (Exception "Query is not specified, but at least one query option is.")
    else Ok (execute_task_config, None).
Proof.
  intros Hq. unfold _add_execute_parameters. dict_lookups.
  rewrite py_any_in_dict. cbn [mbind result_bind mret result_ret].
  by case_bool_decide.
Qed.

Lemma execute_without_query_witness :
  _add_execute_parameters execute_task_init (VDict {["mode" := VStr "append"]})
  = if bool_decide (Exists (fun k => is_Some (({["mode" := VStr "append"]} : dict) !! k))
                      ["large"; "mode"])
    then Raise (Exception "Query is not specified, but at least one query option is.")
    else Ok (execute_task_init, None).
Proof.
  apply (execute_without_query execute_task_init {["mode" := VStr "append"]}).
  reflexivity.
Defined.

(** X6: on an output mapping with [table] and [path] the extract builder
    writes the table into the execute dictionary and fills the extract
    dictionary with the path, [billing] of default [None], [compress] and
    [header] of default [True], the comma as [delimiter] and [csv] as
    [format]; every other key is as it was, and the Python value returned
    is [None]. *)
Theorem extract_with_table_and_path
    (extract_task_config execute_task_config d : dict) (t p : value) :
  d !! "table" = Some t -> d !! "path" = Some p ->
  exists ext : dict,
    _add_extract_parameters extract_task_config execute_task_config (VDict d)
    = Ok (ext, <["table" := t]> execute_task_config, None)
    /\ ext !! "path" = Some p
    /\ ext !! "billing" = Some (default VNone (d !! "billing"))
    /\ ext !! "compress" = Some (default (VBool true) (d !! "compress"))
    /\ ext !! "delimiter" = Some (default (VStr ",") (d !! "delimiter"))
    /\ ext !! "header" = Some (default (VBool true) (d !! "header"))
    /\ ext !! "format" = Some (default (VStr "csv") (d !! "format"))
    /\ forall k : string, k ∉ extract_keys -> ext !! k = extract_task_config !! k.
Proof.
  intros Ht Hp. unfold _add_extract_parameters. dict_lookups.
  cbn [mbind result_bind mret result_ret].
  rewrite lookup_insert_eq, bool_decide_eq_true_2 by eauto.
  cbn [negb py_get mbind result_bind mret result_ret].
  eexists. split; [reflexivity|].
  repeat (split; [by simplify_map_eq|]).
  intros k Hk. unfold extract_keys in Hk.
  rewrite !not_elem_of_cons in Hk. destruct_and!. by simplify_map_eq.
Qed.

Lemma extract_with_table_and_path_witness :
  exists ext : dict,
    _add_extract_parameters extract_task_init execute_task_built (VDict output_table_path)
    = Ok (ext, <["table" := VStr "t2"]> execute_task_built, None)
    /\ ext !! "path" = Some (VStr "gs://y")
    /\ ext !! "billing" = Some (default VNone (output_table_path !! "billing"))
    /\ ext !! "compress" = Some (default (VBool true) (output_table_path !! "compress"))
    /\ ext !! "delimiter" = Some (default (VStr ",") (output_table_path !! "delimiter"))
    /\ ext !! "header" = Some (default (VBool true) (output_table_path !! "header"))
    /\ ext !! "format" = Some (default (VStr "csv") (output_table_path !! "format"))
    /\ forall k : string, k ∉ extract_keys -> ext !! k = extract_task_init !! k.
Proof.
  apply (extract_with_table_and_path extract_task_init execute_task_built
           output_table_path (VStr "t2") (VStr "gs://y")); reflexivity.
Defined.

(** X7: on an output mapping with [table] and without [path] the extract
    builder raises exactly when one of [compress], [delimiter], [format],
    [header] is there ([billing] does not count), and otherwise returns
    [None], having written the table into the execute dictionary. *)
Theorem extract_table_without_path
    (extract_task_config execute_task_config d : dict) (t : value) :
  d !! "table" = Some t -> d !! "path" = None ->
  _add_extract_parameters extract_task_config execute_task_config (VDict d)
  = if bool_decide (Exists (fun k => is_Some (d !! k))
                      ["compress"; "delimiter"; "format"; "header"])
    then Raise (Exception "Path is not specified, but at least one file option is.")
    else Ok (extract_task_config, <["table" := t]> execute_task_config, None).
Proof.
  intros Ht Hp. unfold _add_extract_parameters. dict_lookups.
  cbn [mbind result_bind mret result_ret]. dict_lookups.
  rewrite py_any_in_dict. cbn [mbind result_bind mret result_ret].
  by case_bool_decide.
Qed.

Lemma extract_table_without_path_witness :
  _add_extract_parameters extract_task_init execute_task_built (VDict output_table_option)
  = if bool_decide (Exists (fun k => is_Some (output_table_option !! k))
                      ["compress"; "delimiter"; "format"; "header"])
    then Raise (Exception "Path is not specified, but at least one file option is.")
    else Ok (extract_task_init, <["table" := VStr "t2"]> execute_task_built, None).
Proof.
  apply (extract_table_without_path extract_task_init execute_task_built
           output_table_option (VStr "t2")); reflexivity.
Defined.

(** ** The query parameters and the context *)





(** X9: on a falsy document (no body, an empty mapping or sequence) of a
    query cell the extractor returns the empty dictionary, without any
    schema check, and leaves the environment alone. *)
Theorem query_parameters_falsy_config
    (parse_config : option string -> Env -> bool -> option value)
    (args : Args) (cell_body : option string) (env : Env)
    (config : value) (sql : string) :
  parse_config cell_body env false = Some config ->
  arg_query args = Some sql ->
  py_truth config = false ->
  _get_query_parameters parse_config args cell_body env = (Ok (VDict ∅), env).
Proof.
  intros Hparse Hsql Htruth.
  unfold _get_query_parameters, mbind, cell_bind, notebook_environment, call.
  rewrite Hparse. cbn [mret cell_ret]. rewrite Hsql, Htruth. reflexivity.
Qed.

Lemma query_parameters_falsy_config_witness :
  _get_query_parameters (fun _ _ _ => Some (VList [])) query_args None busy_env
  = (Ok (VDict ∅), busy_env).
Proof.
  apply (query_parameters_falsy_config (fun _ _ _ => Some (VList []))
           query_args None busy_env (VList []) "q"); reflexivity.
Defined.

Lemma copy_config_lookup (source : dict) (keys : list string) :
  (forall k : string, k ∈ keys -> is_Some (source !! k)) ->
  forall config : dict,
  exists out : dict,
    copy_config keys (Some source) config = Ok out
    /\ forall k : string,
         out !! k = if bool_decide (k ∈ keys) then source !! k else config !! k.
Proof.
  induction keys as [|key keys IH]; intros Hkeys config.
  - exists config. split; [reflexivity|]. intros k.
    rewrite bool_decide_eq_false_2; [reflexivity|]. apply not_elem_of_nil.
  - destruct (Hkeys key) as [v Hv]; [by left|].
    destruct (IH (fun k Hk => Hkeys k (list_elem_of_further _ _ _ Hk))
                 (<[key := v]> config)) as (out & Hrun & Hout).
    exists out. split.
    + cbn [copy_config read mbind result_bind].
      rewrite (py_getitem_dict_Some _ _ _ Hv).
      cbn [mbind result_bind]. exact Hrun.
    + intros k. rewrite Hout.
      destruct (decide (k ∈ keys)) as [Hin|Hnin].
      * rewrite !bool_decide_eq_true_2; [reflexivity|by right|exact Hin].
      * rewrite (bool_decide_eq_false_2 _ Hnin).
        destruct (decide (k = key)) as [->|Hne].
        -- rewrite lookup_insert_eq, bool_decide_eq_true_2; [by rewrite Hv|by left].
        -- rewrite lookup_insert_ne by congruence.
           rewrite bool_decide_eq_false_2; [reflexivity|].
           rewrite not_elem_of_cons. auto.
Qed.

Lemma copy_config_all (source : dict) :
  copy_config (fst <$> map_to_list source) (Some source) ∅ = Ok source.
Proof.
  destruct (copy_config_lookup source (fst <$> map_to_list source)) with (config := (∅ : dict))
    as (out & Hrun & Hout).
  - intros k Hk. apply list_elem_of_fmap in Hk as ([k' v] & -> & Hkv).
    apply elem_of_map_to_list in Hkv. simpl. eauto.
  - rewrite Hrun. f_equal. apply map_eq. intros k. rewrite Hout.
    case_bool_decide as Hk; [reflexivity|].
    rewrite lookup_empty. symmetry. apply eq_None_not_Some. intros [v Hv].
    apply Hk. apply list_elem_of_fmap. exists (k, v). split; [reflexivity|].
    by apply elem_of_map_to_list.
Qed.

(** X10: when the default context can be read (its [config], [project_id]
    and [credentials] do not raise) and there is no billing argument, or
    the tier is [0], the context built has the project, the credentials
    and the configuration of the default context: the copy of the
    configuration, key by key, gives the configuration back. *)
Theorem construct_context_without_billing {Credentials : Type}
    (global_default_context : DefaultContext Credentials) (args : Args)
    (project_id : value) (credentials : Credentials) (config : dict) :
  default_project_id global_default_context = Some project_id ->
  default_credentials global_default_context = Some credentials ->
  default_config global_default_context = Some config ->
  arg_billing args = None \/ arg_billing args = Some 0%Z ->
  _construct_context_for_args (Some global_default_context) args
  = Ok (mkContext project_id credentials config).
Proof.
  intros Hproject Hcredentials Hconfig Hbilling.
  unfold _construct_context_for_args.
  cbn [read mbind result_bind]. rewrite Hconfig.
  cbn [read mbind result_bind]. rewrite copy_config_all.
  cbn [mbind result_bind]. rewrite Hproject, Hcredentials.
  cbn [read mbind result_bind mret result_ret].
  destruct Hbilling as [->| ->]; reflexivity.
Qed.

Lemma construct_context_without_billing_witness :
  _construct_context_for_args (Some sample_context) zero_billing_args
  = Ok (mkContext (VStr "my-project") tt sample_config).
Proof.
  apply (construct_context_without_billing sample_context zero_billing_args
           (VStr "my-project") tt sample_config);
    [reflexivity|reflexivity|reflexivity|right; reflexivity].
Defined.

(** X11: when the default context can be read and the billing tier is not
    [0], the context built has the project and credentials of the default
    context and its configuration with [bigquery_billing_tier] set to the
    argument, whatever the default had there; every other key is as in
    the default. *)
Theorem construct_context_with_billing {Credentials : Type}
    (global_default_context : DefaultContext Credentials) (args : Args)
    (project_id : value) (credentials : Credentials) (config : dict) (b : Z) :
  default_project_id global_default_context = Some project_id ->
  default_credentials global_default_context = Some credentials ->
  default_config global_default_context = Some config ->
  arg_billing args = Some b -> b <> 0%Z ->
  exists ctx : DatalabContext Credentials,
    _construct_context_for_args (Some global_default_context) args = Ok ctx
    /\ context_project_id ctx = project_id
    /\ context_credentials ctx = credentials
    /\ context_config ctx !! "bigquery_billing_tier" = Some (VInt b)
    /\ forall k : string, k <> "bigquery_billing_tier" ->
         context_config ctx !! k = config !! k.
Proof.
  intros Hproject Hcredentials Hconfig Hbilling Hb.
  unfold _construct_context_for_args.
  cbn [read mbind result_bind]. rewrite Hconfig.
  cbn [read mbind result_bind]. rewrite copy_config_all.
  cbn [mbind result_bind]. rewrite Hproject, Hcredentials.
  cbn [read mbind result_bind mret result_ret].
  rewrite Hbilling. cbn [py_truth].
  destruct (Z.eqb_spec b 0) as [|_]; [contradiction|]. cbn [negb].
  eexists. split; [reflexivity|]. cbn.
  repeat split; [apply lookup_insert_eq|].
  intros k Hk. by rewrite lookup_insert_ne.
Qed.

Lemma construct_context_with_billing_witness :
  exists ctx : DatalabContext unit,
    _construct_context_for_args (Some sample_context) billing_args = Ok ctx
    /\ context_project_id ctx = VStr "my-project"
    /\ context_credentials ctx = tt
    /\ context_config ctx !! "bigquery_billing_tier" = Some (VInt 2)
    /\ forall k : string, k <> "bigquery_billing_tier" ->
         context_config ctx !! k = sample_config !! k.
Proof.
  apply (construct_context_with_billing sample_context billing_args
           (VStr "my-project") tt sample_config 2%Z);
    [reflexivity|reflexivity|reflexivity|reflexivity|discriminate].
Defined.

(** X20: the function raises only what the collaborator raises: when it
    fails, the call for the default context or the read of one of its
    [config], [project_id], [credentials] has raised.  The copy loop does
    not fail on a configuration that could be read. *)
Theorem construct_context_raises_with_collaborator {Credentials : Type}
    (Context_default : option (DefaultContext Credentials)) (args : Args) (e : exn) :
  _construct_context_for_args Context_default args = Raise e ->
  e = CollaboratorError
  /\ (Context_default = None
      \/ exists global_default_context : DefaultContext Credentials,
           Context_default = Some global_default_context
           /\ (default_config global_default_context = None
               \/ default_project_id global_default_context = None
               \/ default_credentials global_default_context = None)).
Proof.
  unfold _construct_context_for_args.
  destruct Context_default as [global_default_context|];
    cbn [read mbind result_bind]; [|intros [= <-]; auto].
  assert (Hread : default_config global_default_context = None
                  \/ default_project_id global_default_context = None
                  \/ default_credentials global_default_context = None ->
                  CollaboratorError = CollaboratorError
                  /\ (Some global_default_context = None
                      \/ exists c : DefaultContext Credentials,
                           Some global_default_context = Some c
                           /\ (default_config c = None
                               \/ default_project_id c = None
                               \/ default_credentials c = None)))
    by (intros H; split; [reflexivity|right; eauto]).
  destruct (default_config global_default_context) as [config|] eqn:Hconfig;
    cbn [read mbind result_bind]; [|intros [= <-]; auto].
  rewrite copy_config_all. cbn [mbind result_bind].
  destruct (default_project_id global_default_context) as [project_id|] eqn:Hproject;
    cbn [read mbind result_bind]; [|intros [= <-]; auto].
  destruct (default_credentials global_default_context) as [credentials|] eqn:Hcredentials;
    cbn [read mbind result_bind]; [|intros [= <-]; auto].
  discriminate.
Qed.

Lemma construct_context_raises_with_collaborator_witness :
  CollaboratorError = CollaboratorError
  /\ (Some projectless_context = None
      \/ exists global_default_context : DefaultContext unit,
           Some projectless_context = Some global_default_context
           /\ (default_config global_default_context = None
               \/ default_project_id global_default_context = None
               \/ default_credentials global_default_context = None)).
Proof.
  apply (construct_context_raises_with_collaborator (Some projectless_context)
           billing_args CollaboratorError).
  reflexivity.
Defined.

(** ** Runs of the pipeline cell *)

Lemma pipeline_cell_compiled
    (parse_config : option string -> Env -> bool -> option value)
    (Pipeline_py : Pipeline -> option string)
    (args : Args) (cell_body : option string) (env env' : Env)
    (py : option string) :
  _pipeline_cell parse_config Pipeline_py args cell_body env = (Ok py, env') ->
  compiled parse_config Pipeline_py args cell_body env py env'.
Proof.
  unfold _pipeline_cell.
  destruct (arg_name args) as [name|] eqn:Hname; [|discriminate].
  unfold mbind, cell_bind, lift, raise, call, notebook_environment,
    notebook_environment_set, mret, cell_ret.
  cbn beta iota zeta.
  destruct (parse_config cell_body env true) as [doc|] eqn:Hdoc;
    cbn beta iota zeta; [|discriminate].
  destruct (py_get doc "input" VNone) as [input|] eqn:Hinput;
    cbn beta iota zeta; [|discriminate].
  destruct (_add_load_parameters _ input) as [[load r1]|] eqn:Hload;
    cbn beta iota zeta; [|discriminate].
  destruct (py_getitem doc "transformation") as [transformation|] eqn:Htransformation;
    cbn beta iota zeta; [|discriminate].
  destruct (_add_execute_parameters _ transformation) as [[execute0 r2]|] eqn:Hexecute;
    cbn beta iota zeta; [|discriminate].
  destruct (py_getitem doc "output") as [output|] eqn:Houtput;
    cbn beta iota zeta; [|discriminate].
  destruct (_add_extract_parameters _ execute0 output) as [[[extract execute] r3]|] eqn:Hextract;
    cbn beta iota zeta; [|discriminate].
  destruct (py_getitem doc "email") as [email|] eqn:Hemail;
    cbn beta iota zeta; [|discriminate].
  destruct (py_getitem doc "schedule") as [schedule|] eqn:Hschedule;
    cbn beta iota zeta; [|discriminate].
  destruct (load_built _ _ _ Hload) as [Hload_truth _].
  destruct (execute_built _ _ _ Hexecute) as [Hexecute_type _].
  destruct (extract_built _ _ _ _ _ Hextract) as (Hextract_truth & _ & Htype & _).
  rewrite Hexecute_type in Htype.
  rewrite Hload_truth, Hextract_truth, (dict_truth_lookup _ _ _ Htype).
  cbn beta iota zeta delta [negb andb].
  destruct (arg_debug args) eqn:Hdebug;
    [destruct (Pipeline_py _) as [s|] eqn:Hpy; [|discriminate]|];
    intros [= <- <-];
    (eapply (Compiled _ _ _ _ _ name doc input transformation output email schedule
               load execute0 execute extract r1 r2 r3);
     [exact Hname|exact Hdoc|exact Hinput|exact Hload|exact Htransformation
     |exact Hexecute|exact Houtput|exact Hextract|exact Hemail|exact Hschedule|]);
    rewrite Hdebug; eauto.
Qed.

Lemma py_getitem_Ok_inv (c : value) (k : string) (v : value) :
  py_getitem c k = Ok v -> exists d : dict, c = VDict d /\ d !! k = Some v.
Proof.
  destruct c as [| | | | |d]; simpl; try discriminate.
  destruct (d !! k) as [w|] eqn:Hk; [|discriminate].
  intros [= <-]. eauto.
Qed.

(** X12: a document without an [input] section, or with an empty one
    ([None]), makes the cell raise [TypeError]: the [None] that [get]
    supplies reaches the membership test of the load builder.  Nothing is
    registered. *)
Theorem pipeline_missing_input_type_error
    (parse_config : option string -> Env -> bool -> option value)
    (Pipeline_py : Pipeline -> option string)
    (args : Args) (cell_body : option string) (env : Env)
    (name : string) (d : dict) :
  arg_name args = Some name ->
  parse_config cell_body env true = Some (VDict d) ->
  d !! "input" = None \/ d !! "input" = Some VNone ->
  _pipeline_cell parse_config Pipeline_py args cell_body env = (Raise TypeError, env).
Proof.
  intros Hname Hparse Hinput.
  unfold _pipeline_cell. rewrite Hname.
  unfold mbind, cell_bind, lift, call, notebook_environment.
  rewrite Hparse. cbn [mret cell_ret py_get].
  destruct Hinput as [-> | ->]; reflexivity.
Qed.

Lemma pipeline_missing_input_type_error_witness :
  _pipeline_cell
    (fun _ _ _ => Some (VDict {["transformation" := VDict {["query" := VStr "SELECT 1"]}]}))
    render_name pipeline_args None busy_env
  = (Raise TypeError, busy_env).
Proof.
  apply (pipeline_missing_input_type_error
           (fun _ _ _ => Some (VDict {["transformation" := VDict {["query" := VStr "SELECT 1"]}]}))
           render_name pipeline_args None busy_env "p"
           {["transformation" := VDict {["query" := VStr "SELECT 1"]}]});
    [reflexivity|reflexivity|left; reflexivity].
Defined.

(** X13: a run that returns had a document that is a mapping with all of
    [input] (not [None]), [transformation], [output], [email] and
    [schedule]. *)
Theorem pipeline_success_requires_sections
    (parse_config : option string -> Env -> bool -> option value)
    (Pipeline_py : Pipeline -> option string)
    (args : Args) (cell_body : option string) (env env' : Env)
    (py : option string) :
  _pipeline_cell parse_config Pipeline_py args cell_body env = (Ok py, env') ->
  exists (d : dict) (input : value),
    parse_config cell_body env true = Some (VDict d)
    /\ d !! "input" = Some input /\ input <> VNone
    /\ is_Some (d !! "transformation")
    /\ is_Some (d !! "output")
    /\ is_Some (d !! "email")
    /\ is_Some (d !! "schedule").
Proof.
  intros Hrun. apply pipeline_cell_compiled in Hrun.
  destruct Hrun as [name doc input transformation output email schedule
                    load execute0 execute extract r1 r2 r3 py
                    Hname Hdoc Hinput Hload Htrans Hexecute Hout Hextract
                    Hemail Hschedule Hpy].
  apply py_getitem_Ok_inv in Htrans as (d & -> & Htrans).
  apply py_getitem_Ok_inv in Hout as (d' & [= <-] & Hout).
  apply py_getitem_Ok_inv in Hemail as (d' & [= <-] & Hemail).
  apply py_getitem_Ok_inv in Hschedule as (d' & [= <-] & Hschedule).
  simpl in Hinput. injection Hinput as Hinput.
  exists d, input. split; [exact Hdoc|].
  assert (Hnone : input <> VNone) by (intros ->; discriminate Hload).
  destruct (d !! "input") as [i|]; simpl in Hinput; subst; [|contradiction].
  eauto 10.
Qed.

Lemma pipeline_success_requires_sections_witness :
  exists (d : dict) (input : value),
    (fun (_ : option string) (_ : Env) (_ : bool) => Some full_document)
      None busy_env true = Some (VDict d)
    /\ d !! "input" = Some input /\ input <> VNone
    /\ is_Some (d !! "transformation")
    /\ is_Some (d !! "output")
    /\ is_Some (d !! "email")
    /\ is_Some (d !! "schedule").
Proof.
  apply (pipeline_success_requires_sections (fun _ _ _ => Some full_document)
           render_name pipeline_args None busy_env
           (<["p" := ObjPipeline full_pipeline]> busy_env) None).
  reflexivity.
Defined.

(** X14: a run that returns has bound the name to a pipeline of that name
    whose specification has exactly [email] and [schedule], as the document
    has them, and [tasks]; the tasks are exactly the load, execute and
    extract task, each with the [type] the cell gave it: the document
    cannot change a task's type. *)
Theorem pipeline_success_shape
    (parse_config : option string -> Env -> bool -> option value)
    (Pipeline_py : Pipeline -> option string)
    (args : Args) (cell_body : option string) (env env' : Env)
    (py : option string) :
  _pipeline_cell parse_config Pipeline_py args cell_body env = (Ok py, env') ->
  exists (name : string) (d spec tasks load execute extract : dict),
    arg_name args = Some name
    /\ parse_config cell_body env true = Some (VDict d)
    /\ env' = <[name := ObjPipeline (mkPipeline name spec)]> env
    /\ dom spec = {["email"; "schedule"; "tasks"]}
    /\ spec !! "email" = d !! "email"
    /\ spec !! "schedule" = d !! "schedule"
    /\ spec !! "tasks" = Some (VDict tasks)
    /\ dom tasks = {[load_task_config_name; execute_task_config_name;
                     extract_task_config_name]}
    /\ tasks !! load_task_config_name = Some (VDict load)
    /\ load !! "type" = Some (VStr "pydatalab.bq.load")
    /\ tasks !! execute_task_config_name = Some (VDict execute)
    /\ execute !! "type" = Some (VStr "pydatalab.bq.execute")
    /\ tasks !! extract_task_config_name = Some (VDict extract)
    /\ extract !! "type" = Some (VStr "pydatalab.bq.extract").
Proof.
  intros Hrun. apply pipeline_cell_compiled in Hrun.
  destruct Hrun as [name doc input transformation output email schedule
                    load execute0 execute extract r1 r2 r3 py
                    Hname Hdoc Hinput Hload Htrans Hexecute Hout Hextract
                    Hemail Hschedule Hpy].
  apply py_getitem_Ok_inv in Hemail as (d & -> & Hemail).
  apply py_getitem_Ok_inv in Hschedule as (d' & [= <-] & Hschedule).
  exists name, d, (pipeline_spec_of email schedule load execute extract),
    (three_tasks load execute extract), load, execute, extract.
  destruct (execute_built _ _ _ Hexecute) as [Hexecute_type _].
  destruct (extract_frame _ _ _ _ _ _ "type" Hextract) as [Hext_type Hexe_type].
  unfold pipeline_spec_of, three_tasks.
  repeat split; try done.
  - rewrite (load_frame _ _ _ _ "type" Hload) by key_not_in. reflexivity.
  - rewrite Hexe_type by discriminate. exact Hexecute_type.
  - rewrite Hext_type by key_not_in. reflexivity.
Qed.

Lemma pipeline_success_shape_witness :
  exists (name : string) (d spec tasks load execute extract : dict),
    arg_name pipeline_args = Some name
    /\ (fun (_ : option string) (_ : Env) (_ : bool) => Some full_document)
         None busy_env true = Some (VDict d)
    /\ <["p" := ObjPipeline full_pipeline]> busy_env
       = <[name := ObjPipeline (mkPipeline name spec)]> busy_env
    /\ dom spec = {["email"; "schedule"; "tasks"]}
    /\ spec !! "email" = d !! "email"
    /\ spec !! "schedule" = d !! "schedule"
    /\ spec !! "tasks" = Some (VDict tasks)
    /\ dom tasks = {[load_task_config_name; execute_task_config_name;
                     extract_task_config_name]}
    /\ tasks !! load_task_config_name = Some (VDict load)
    /\ load !! "type" = Some (VStr "pydatalab.bq.load")
    /\ tasks !! execute_task_config_name = Some (VDict execute)
    /\ execute !! "type" = Some (VStr "pydatalab.bq.execute")
    /\ tasks !! extract_task_config_name = Some (VDict extract)
    /\ extract !! "type" = Some (VStr "pydatalab.bq.extract").
Proof.
  apply (pipeline_success_shape (fun _ _ _ => Some full_document)
           render_name pipeline_args None busy_env
           (<["p" := ObjPipeline full_pipeline]> busy_env) None).
  reflexivity.
Defined.

Lemma extract_writes_table (extract_task_config execute_task_config ext exe d : dict)
    (r : option dict) :
  _add_extract_parameters extract_task_config execute_task_config (VDict d)
  = Ok (ext, exe, r) ->
  exe = match d !! "table" with
        | Some t => <["table" := t]> execute_task_config
        | None => execute_task_config
        end.
Proof.
  destruct (d !! "table") as [t|] eqn:Ht.
  - destruct (d !! "path") as [p|] eqn:Hp.
    + unfold _add_extract_parameters.
      rewrite (py_in_dict_Some _ _ _ Ht), (py_getitem_dict_Some _ _ _ Ht).
      cbn [mbind result_bind mret result_ret].
      rewrite (py_in_dict_Some _ _ _ Hp), (py_getitem_dict_Some _ _ _ Hp).
      cbn [mbind result_bind mret result_ret].
      rewrite lookup_insert_eq, bool_decide_eq_true_2 by eauto.
      cbn [negb py_get mbind result_bind mret result_ret].
      by intros [= _ <- _].
    + unfold _add_extract_parameters.
      rewrite (py_in_dict_Some _ _ _ Ht), (py_getitem_dict_Some _ _ _ Ht).
      cbn [mbind result_bind mret result_ret].
      rewrite (py_in_dict_None _ _ Hp).
      cbn [mbind result_bind mret result_ret].
      destruct (py_any_in _ _) as [[|]|]; cbn [mbind result_bind];
        try discriminate.
      by intros [= _ <- _].
  - unfold _add_extract_parameters. rewrite (py_in_dict_None _ _ Ht).
    by intros [= _ <- _].
Qed.

(** X15: in the pipeline a run registers, the execute task has the [table]
    of the output section, and no [table] when the output section has
    none: what the extract builder writes into the execute dictionary is
    what the cell registers. *)
Theorem pipeline_execute_table_from_output
    (parse_config : option string -> Env -> bool -> option value)
    (Pipeline_py : Pipeline -> option string)
    (args : Args) (cell_body : option string) (env env' : Env)
    (py : option string) (d o : dict) :
  _pipeline_cell parse_config Pipeline_py args cell_body env = (Ok py, env') ->
  parse_config cell_body env true = Some (VDict d) ->
  d !! "output" = Some (VDict o) ->
  exists (name : string) (p : Pipeline) (tasks execute : dict),
    arg_name args = Some name
    /\ env' !! name = Some (ObjPipeline p)
    /\ pipeline_spec p !! "tasks" = Some (VDict tasks)
    /\ tasks !! execute_task_config_name = Some (VDict execute)
    /\ execute !! "table" = o !! "table".
Proof.
  intros Hrun Hparse Ho. apply pipeline_cell_compiled in Hrun.
  destruct Hrun as [name doc input transformation output email schedule
                    load execute0 execute extract r1 r2 r3 py
                    Hname Hdoc Hinput Hload Htrans Hexecute Hout Hextract
                    Hemail Hschedule Hpy].
  rewrite Hparse in Hdoc. injection Hdoc as <-.
  simpl in Hout. rewrite Ho in Hout. injection Hout as <-.
  exists name, (mkPipeline name (pipeline_spec_of email schedule load execute extract)),
    (three_tasks load execute extract), execute.
  split; [exact Hname|]. split; [apply lookup_insert_eq|].
  split; [reflexivity|]. split; [reflexivity|].
  rewrite (extract_writes_table _ _ _ _ _ _ Hextract).
  assert (Hnone : execute0 !! "table" = None).
  { rewrite (execute_frame _ _ _ _ "table" Hexecute) by key_not_in. reflexivity. }
  destruct (o !! "table") as [t|]; [apply lookup_insert_eq|exact Hnone].
Qed.

Lemma pipeline_execute_table_from_output_witness :
  exists (name : string) (p : Pipeline) (tasks execute : dict),
    arg_name pipeline_args = Some name
    /\ (<["p" := ObjPipeline full_pipeline]> busy_env) !! name = Some (ObjPipeline p)
    /\ pipeline_spec p !! "tasks" = Some (VDict tasks)
    /\ tasks !! execute_task_config_name = Some (VDict execute)
    /\ execute !! "table" = output_table_path !! "table".
Proof.
  apply (pipeline_execute_table_from_output (fun _ _ _ => Some full_document)
           render_name pipeline_args None busy_env
           (<["p" := ObjPipeline full_pipeline]> busy_env) None
           full_sections output_table_path); reflexivity.
Defined.

(** X16: a run that returns gives [None] without debug mode and the
    rendering of the pipeline it registered in debug mode. *)
Theorem pipeline_debug_return
    (parse_config : option string -> Env -> bool -> option value)
    (Pipeline_py : Pipeline -> option string)
    (args : Args) (cell_body : option string) (env env' : Env)
    (py : option string) :
  _pipeline_cell parse_config Pipeline_py args cell_body env = (Ok py, env') ->
  exists (name : string) (p : Pipeline),
    arg_name args = Some name
    /\ pipeline_name p = name
    /\ env' !! name = Some (ObjPipeline p)
    /\ py = if arg_debug args then Pipeline_py p else None.
Proof.
  intros Hrun. apply pipeline_cell_compiled in Hrun.
  destruct Hrun as [name doc input transformation output email schedule
                    load execute0 execute extract r1 r2 r3 py
                    Hname Hdoc Hinput Hload Htrans Hexecute Hout Hextract
                    Hemail Hschedule Hpy].
  exists name, (mkPipeline name (pipeline_spec_of email schedule load execute extract)).
  split; [exact Hname|]. split; [reflexivity|].
  split; [apply lookup_insert_eq|].
  destruct (arg_debug args); [|exact Hpy].
  destruct Hpy as (s & -> & ->). reflexivity.
Qed.

Lemma pipeline_debug_return_witness :
  exists (name : string) (p : Pipeline),
    arg_name debug_args = Some name
    /\ pipeline_name p = name
    /\ (<["p" := ObjPipeline full_pipeline]> busy_env) !! name = Some (ObjPipeline p)
    /\ Some "p" = if arg_debug debug_args then render_name p else None.
Proof.
  apply (pipeline_debug_return (fun _ _ _ => Some full_document)
           render_name debug_args None busy_env
           (<["p" := ObjPipeline full_pipeline]> busy_env) (Some "p")).
  reflexivity.
Defined.

(** X17: whatever a run of the cell does, every name of the environment
    other than the pipeline's keeps its binding. *)
Theorem pipeline_other_names_untouched
    (parse_config : option string -> Env -> bool -> option value)
    (Pipeline_py : Pipeline -> option string)
    (args : Args) (cell_body : option string) (env env' : Env)
    (r : result (option string)) (other : string) :
  _pipeline_cell parse_config Pipeline_py args cell_body env = (r, env') ->
  arg_name args <> Some other ->
  env' !! other = env !! other.
Proof.
  intros Hrun Hother. apply pipeline_cell_outcome in Hrun.
  inversion Hrun as [e|name spec tasks r' Hname Hspec Hchained Hr]; subst;
    [reflexivity|].
  apply lookup_insert_ne. congruence.
Qed.

Lemma pipeline_other_names_untouched_witness :
  (<["p" := ObjPipeline full_pipeline]> busy_env) !! "answer" = busy_env !! "answer".
Proof.
  apply (pipeline_other_names_untouched (fun _ _ _ => Some full_document)
           render_name pipeline_args None busy_env
           (<["p" := ObjPipeline full_pipeline]> busy_env) (Ok None) "answer");
    [reflexivity|discriminate].
Defined.

(** X18: the environment a run leaves depends on neither the debug flag
    nor the renderer: two runs that differ only there leave the same
    environment. *)
Theorem pipeline_registration_ignores_debug
    (parse_config : option string -> Env -> bool -> option value)
    (Pipeline_py Pipeline_py' : Pipeline -> option string)
    (args args' : Args) (cell_body : option string) (env : Env) :
  arg_name args = arg_name args' ->
  snd (_pipeline_cell parse_config Pipeline_py args cell_body env)
  = snd (_pipeline_cell parse_config Pipeline_py' args' cell_body env).
Proof.
  intros Hname. unfold _pipeline_cell. rewrite <- Hname.
  destruct (arg_name args) as [name|]; [|reflexivity].
  unfold mbind, cell_bind, lift, raise, call, notebook_environment,
    notebook_environment_set, mret, cell_ret.
  cbn beta iota zeta.
  destruct (parse_config cell_body env true) as [doc|];
    cbn beta iota zeta; [|reflexivity].
  repeat (cell_step; [|reflexivity]).
  match goal with
  | |- context [negb ?a && negb ?b && negb ?c] =>
      destruct (negb a && negb b && negb c); [reflexivity|]
  end.
  destruct (arg_debug args), (arg_debug args');
    repeat match goal with
    | |- context [Pipeline_py ?p] => destruct (Pipeline_py p)
    | |- context [Pipeline_py' ?p] => destruct (Pipeline_py' p)
    end; reflexivity.
Qed.

Lemma pipeline_registration_ignores_debug_witness :
  snd (_pipeline_cell (fun _ _ _ => Some full_document) render_name
         debug_args None busy_env)
  = snd (_pipeline_cell (fun _ _ _ => Some full_document) (fun _ => None)
           pipeline_args None busy_env).
Proof.
  apply (pipeline_registration_ignores_debug (fun _ _ _ => Some full_document)
           render_name (fun _ => None) debug_args pipeline_args None busy_env).
  reflexivity.
Defined.

(** X19: a run that ends with an [Exception] has left the environment as
    it was, and the message is one of four: the missing name, schema
    without path, query option without query, file option without path. *)
Theorem pipeline_exception_messages
    (parse_config : option string -> Env -> bool -> option value)
    (Pipeline_py : Pipeline -> option string)
    (args : Args) (cell_body : option string) (env env' : Env) (msg : string) :
  _pipeline_cell parse_config Pipeline_py args cell_body env
  = (Raise (Exception msg), env') ->
  env' = env
  /\ (msg = "Pipeline name was not specified."
      \/ msg = "Schema is specified, but path is absent."
      \/ msg = "Query is not specified, but at least one query option is."
      \/ msg = "Path is not specified, but at least one file option is.").
Proof.
  intros Hrun. split.
  - apply pipeline_cell_outcome in Hrun.
    inversion Hrun as [e|name spec tasks r' Hname Hspec Hchained Hr]; [reflexivity|].
    destruct Hr as [Hr|[py Hr]]; discriminate Hr.
  - apply pipeline_cell_exceptions in Hrun.
    unfold pipeline_messages in Hrun. rewrite !elem_of_cons in Hrun.
    destruct Hrun as [H|[H|[H|[H|H]]]]; auto.
    by apply elem_of_nil in H.
Qed.

Lemma pipeline_exception_messages_witness :
  busy_env = busy_env
  /\ ("Schema is specified, but path is absent." = "Pipeline name was not specified."
      \/ "Schema is specified, but path is absent."
         = "Schema is specified, but path is absent."
      \/ "Schema is specified, but path is absent."
         = "Query is not specified, but at least one query option is."
      \/ "Schema is specified, but path is absent."
         = "Path is not specified, but at least one file option is.").
Proof.
  apply (pipeline_exception_messages (fun _ _ _ => Some table_query_document)
           render_name pipeline_args None busy_env busy_env
           "Schema is specified, but path is absent.").
  reflexivity.
Defined.
